(** * Gong MCP server: a shallow embedding of [gong_mcp_server.py]

    The development follows the source file top-down:

    - Python values as they travel through the adapter (JSON-shaped data),
      the few interpreter operations the handlers apply to them
      ([.get], subscripting, slicing, iteration, [len], truthiness, [str]),
      and the exceptions those operations raise;
    - the library functions the source calls: [datetime] arithmetic and
      [isoformat], [base64.b64encode], [json.dumps(..., indent=2)];
    - the effects: reading the wall clock and issuing one HTTP request,
      threaded through a state-and-exception monad that keeps the log of
      issued requests also when the computation raises;
    - [make_gong_request], the four operation handlers and
      [handle_call_tool], transcribed statement by statement;
    - the properties of the adapter's request/response contract.

    Modelling conventions.  JSON numbers are Python [int]s (binary floating
    point is outside the model).  A [string] is a sequence of code points
    below 256.  Interpreter messages are those of CPython 3.11. *)

From Stdlib Require Import ZArith List String Ascii Bool Lia.
From Stdlib Require Import DecimalString.
Import ListNotations.

Local Open Scope string_scope.
Local Open Scope Z_scope.

#[local] Set Warnings "-register-all".

(* ================================================================== *)
(** * Python values *)
(* ================================================================== *)

(** A [dict] keeps insertion order, which [json.dumps] shows; it is an
    association list searched from the front. *)
Inductive value : Type :=
| PyNone
| PyBool (b : bool)
| PyInt (n : Z)
| PyStr (s : string)
| PyList (l : list value)
| PyDict (d : list (string * value)).

Definition dict := list (string * value).

Fixpoint dict_lookup (k : string) (d : dict) : option value :=
  match d with
  | [] => None
  | (k', v) :: d' => if String.eqb k k' then Some v else dict_lookup k d'
  end.

(** [k in d] *)
Definition dict_contains (k : string) (d : dict) : bool :=
  match dict_lookup k d with Some _ => true | None => false end.

(** [d[k] = v]: overwrite in place, or append a new key. *)
Fixpoint dict_set (k : string) (v : value) (d : dict) : dict :=
  match d with
  | [] => [(k, v)]
  | (k', v') :: d' =>
      if String.eqb k k' then (k, v) :: d' else (k', v') :: dict_set k v d'
  end.

(** [type(v).__name__] *)
Definition type_name (v : value) : string :=
  match v with
  | PyNone => "NoneType"
  | PyBool _ => "bool"
  | PyInt _ => "int"
  | PyStr _ => "str"
  | PyList _ => "list"
  | PyDict _ => "dict"
  end.

(** [bool(v)] *)
Definition truthy (v : value) : bool :=
  match v with
  | PyNone => false
  | PyBool b => b
  | PyInt n => negb (n =? 0)
  | PyStr s => negb (String.eqb s "")
  | PyList l => match l with [] => false | _ => true end
  | PyDict d => match d with [] => false | _ => true end
  end.

(* ================================================================== *)
(** * Text: decimal and hexadecimal numerals, [str] and [repr] *)
(* ================================================================== *)

(** [str(n)] for an [int]. *)
Definition str_int (n : Z) : string := NilZero.string_of_int (Z.to_int n).

Fixpoint repeat_char (c : ascii) (n : nat) : string :=
  match n with O => "" | S n' => String c (repeat_char c n') end.

(** ["%0<width>d" % n] for [n >= 0]. *)
Definition zero_pad (width : nat) (n : Z) : string :=
  let s := str_int n in
  repeat_char "0"%char (width - String.length s) ++ s.

Definition hex_digit (n : Z) : ascii :=
  ascii_of_nat (Z.to_nat (if n <? 10 then 48 + n else 87 + n)).

(** Two lower-case hexadecimal digits of a code point below 256. *)
Definition hex2 (c : ascii) : string :=
  let n := Z.of_nat (nat_of_ascii c) in
  String (hex_digit (n / 16)) (String (hex_digit (n mod 16)) "").

Fixpoint string_exists (p : ascii -> bool) (s : string) : bool :=
  match s with
  | EmptyString => false
  | String c s' => p c || string_exists p s'
  end.

Fixpoint string_flat_map (f : ascii -> string) (s : string) : string :=
  match s with
  | EmptyString => ""
  | String c s' => f c ++ string_flat_map f s'
  end.

(** The character U+0022. *)
Definition double_quote : ascii := "034"%char.

(** [str.isprintable] on one code point below 256: the controls, DEL,
    U+0080..U+00A0 and the soft hyphen U+00AD are not printable. *)
Definition printable (c : ascii) : bool :=
  let n := nat_of_ascii c in
  ((32 <=? n) && (n <=? 126) || (161 <=? n) && negb (n =? 173))%nat.

(** [repr(s)] for a [str]: single quotes unless the text has a single
    quote and no double quote. *)
Definition repr_str (s : string) : string :=
  let has_single := string_exists (Ascii.eqb "'"%char) s in
  let has_double := string_exists (Ascii.eqb double_quote) s in
  let quote := if has_single && negb has_double then double_quote else "'"%char in
  let esc (c : ascii) : string :=
    if Ascii.eqb c quote || Ascii.eqb c "\"%char then String "\"%char (String c "")
    else if Ascii.eqb c "009"%char then "\t"
    else if Ascii.eqb c "010"%char then "\n"
    else if Ascii.eqb c "013"%char then "\r"
    else if printable c then String c ""
    else "\x" ++ hex2 c in
  String quote (string_flat_map esc s) ++ String quote "".

Fixpoint join (sep : string) (l : list string) : string :=
  match l with
  | [] => ""
  | [x] => x
  | x :: l' => x ++ sep ++ join sep l'
  end.

(** [repr(v)] *)
Fixpoint repr (v : value) : string :=
  match v with
  | PyNone => "None"
  | PyBool b => if b then "True" else "False"
  | PyInt n => str_int n
  | PyStr s => repr_str s
  | PyList l => "[" ++ join ", " (map repr l) ++ "]"
  | PyDict d =>
      "{" ++ join ", " (map (fun kv => repr_str (fst kv) ++ ": " ++ repr (snd kv)) d) ++ "}"
  end.

(** [str(v)], which is also what an f-string field [{v}] shows. *)
Definition str (v : value) : string :=
  match v with
  | PyStr s => s
  | _ => repr v
  end.

(* ================================================================== *)
(** * Exceptions and fallible expressions *)
(* ================================================================== *)

(** The exception classes that can arise below the dispatch layer.  All
    of them derive from [Exception]. *)
Inductive exn : Type :=
| ValueError (msg : string)
| KeyError (key : value)
| IndexError (msg : string)
| TypeError (msg : string)
| AttributeError (msg : string)
| OverflowError (msg : string).

(** [str(e)]: a [KeyError] shows the [repr] of the missing key. *)
Definition str_exn (e : exn) : string :=
  match e with
  | KeyError k => repr k
  | ValueError m | IndexError m | TypeError m
  | AttributeError m | OverflowError m => m
  end.

Inductive result (A : Type) : Type :=
| Ok (a : A)
| Raise (e : exn).
Arguments Ok {A} a.
Arguments Raise {A} e.

Definition rbind {A B} (r : result A) (k : A -> result B) : result B :=
  match r with
  | Ok a => k a
  | Raise e => Raise e
  end.

Declare Scope result_scope.
Delimit Scope result_scope with result.
Notation "x <- c ;; k" := (rbind c (fun x => k))
  (at level 61, c at next level, right associativity) : result_scope.

(** A loop body run over the items in order; the first exception ends
    the loop. *)
Fixpoint map_result {A B} (f : A -> result B) (l : list A) : result (list B) :=
  match l with
  | [] => Ok []
  | a :: l' =>
      (b <- f a ;;
       bs <- map_result f l' ;;
       Ok (b :: bs))%result
  end.

(* ------------------------------------------------------------------ *)
(** ** Interpreter operations on values *)
(* ------------------------------------------------------------------ *)

(** [d.get(k, default)] on a [dict]. *)
Definition dict_get (d : dict) (k : string) (default : value) : value :=
  match dict_lookup k d with
  | Some x => x
  | None => default
  end.

(** [v.get(k, default)]: only a [dict] has the method. *)
Definition py_get (v : value) (k : string) (default : value) : result value :=
  match v with
  | PyDict d => Ok (dict_get d k default)
  | _ =>
      Raise (AttributeError
               ("'" ++ type_name v ++ "' object has no attribute 'get'"))
  end.

(** The characters of a [str], each a [str] of length one. *)
Fixpoint chars (s : string) : list value :=
  match s with
  | EmptyString => []
  | String c s' => PyStr (String c "") :: chars s'
  end.

Fixpoint string_firstn (n : nat) (s : string) : string :=
  match n, s with
  | S n', String c s' => String c (string_firstn n' s')
  | _, _ => ""
  end.

Definition not_subscriptable {A} (v : value) : result A :=
  Raise (TypeError ("'" ++ type_name v ++ "' object is not subscriptable")).

(** [v["k"]] with a [str] key. *)
Definition py_getitem_str (v : value) (k : string) : result value :=
  match v with
  | PyDict d =>
      match dict_lookup k d with
      | Some x => Ok x
      | None => Raise (KeyError (PyStr k))
      end
  | PyList _ =>
      Raise (TypeError "list indices must be integers or slices, not str")
  | PyStr _ =>
      Raise (TypeError "string indices must be integers, not 'str'")
  | _ => not_subscriptable v
  end.

(** [v[0]].  The keys of a JSON object are strings, so [0] is never a
    key of a [dict]. *)
Definition py_getitem_0 (v : value) : result value :=
  match v with
  | PyList l =>
      match l with
      | x :: _ => Ok x
      | [] => Raise (IndexError "list index out of range")
      end
  | PyStr s =>
      match s with
      | String c _ => Ok (PyStr (String c ""))
      | EmptyString => Raise (IndexError "string index out of range")
      end
  | PyDict _ => Raise (KeyError (PyInt 0))
  | _ => not_subscriptable v
  end.

(** [v[:n]]: a [list] and a [str] can be sliced. *)
Definition py_slice_to (n : nat) (v : value) : result value :=
  match v with
  | PyList l => Ok (PyList (firstn n l))
  | PyStr s => Ok (PyStr (string_firstn n s))
  | PyDict _ => Raise (TypeError "unhashable type: 'slice'")
  | _ => not_subscriptable v
  end.

(** The items a [for] loop or a comprehension visits: the elements of a
    [list], the characters of a [str], the keys of a [dict]. *)
Definition py_iter (v : value) : result (list value) :=
  match v with
  | PyList l => Ok l
  | PyStr s => Ok (chars s)
  | PyDict d => Ok (map (fun kv => PyStr (fst kv)) d)
  | _ => Raise (TypeError ("'" ++ type_name v ++ "' object is not iterable"))
  end.

(** [len(v)] *)
Definition py_len (v : value) : result Z :=
  match v with
  | PyList l => Ok (Z.of_nat (List.length l))
  | PyStr s => Ok (Z.of_nat (String.length s))
  | PyDict d => Ok (Z.of_nat (List.length d))
  | _ => Raise (TypeError ("object of type '" ++ type_name v ++ "' has no len()"))
  end.

(* ================================================================== *)
(** * [datetime] and [timedelta] *)
(* ================================================================== *)

(** A naive [datetime] is the number of microseconds since
    0001-01-01T00:00:00; a [timedelta] is a number of microseconds. *)
Definition datetime := Z.
Definition timedelta := Z.

Definition us_per_day : Z := 86400000000.

(** [datetime.max.toordinal()] *)
Definition max_ordinal : Z := 3652059.

(** The datetimes of the years 1 to 9999, the only ones that exist. *)
Definition valid_datetime (t : datetime) : Prop :=
  0 <= t < max_ordinal * us_per_day.

Definition valid_datetimeb (t : datetime) : bool :=
  (0 <=? t) && (t <? max_ordinal * us_per_day).

(** [timedelta(days=v)].  An [int] (or a [bool], which is one) of
    magnitude at most 999999999 is accepted. *)
Definition timedelta_days (v : value) : result timedelta :=
  let of_int (n : Z) : result timedelta :=
    if (n <? - 2 ^ 31) || (2 ^ 31 - 1 <? n) then
      Raise (OverflowError "Python int too large to convert to C int")
    else if 999999999 <? Z.abs n then
      Raise (OverflowError
               ("days=" ++ str_int n ++ "; must have magnitude <= 999999999"))
    else Ok (n * us_per_day) in
  match v with
  | PyInt n => of_int n
  | PyBool b => of_int (if b then 1 else 0)
  | _ =>
      Raise (TypeError
               ("unsupported type for timedelta days component: " ++ type_name v))
  end.

(** [t - delta] *)
Definition datetime_sub (t : datetime) (delta : timedelta) : result datetime :=
  let r := t - delta in
  if valid_datetimeb r then Ok r
  else Raise (OverflowError "date value out of range").

Definition days_before_month (month : Z) : Z :=
  nth (Z.to_nat month) [-1; 0; 31; 59; 90; 120; 151; 181; 212; 243; 273; 304; 334] 0.

Definition days_in_month (month : Z) : Z :=
  nth (Z.to_nat month) [-1; 31; 28; 31; 30; 31; 30; 31; 31; 30; 31; 30; 31] 0.

(** [_ord2ymd]: the proleptic Gregorian date of a day number, day 1
    being 0001-01-01. *)
Definition ord2ymd (ordinal : Z) : Z * Z * Z :=
  let n := ordinal - 1 in
  let n400 := n / 146097 in
  let n := n mod 146097 in
  let year := n400 * 400 + 1 in
  let n100 := n / 36524 in
  let n := n mod 36524 in
  let n4 := n / 1461 in
  let n := n mod 1461 in
  let n1 := n / 365 in
  let n := n mod 365 in
  let year := year + n100 * 100 + n4 * 4 + n1 in
  if (n1 =? 4) || (n100 =? 4) then (year - 1, 12, 31)
  else
    let leapyear := (n1 =? 3) && (negb (n4 =? 24) || (n100 =? 3)) in
    let month := Z.shiftr (n + 50) 5 in
    let preceding :=
      days_before_month month
      + (if (2 <? month) && leapyear then 1 else 0) in
    if n <? preceding then
      let month := month - 1 in
      let preceding :=
        preceding
        - (days_in_month month
           + (if (month =? 2) && leapyear then 1 else 0)) in
      (year, month, n - preceding + 1)
    else (year, month, n - preceding + 1).

(** [t.isoformat()]: the microseconds are shown only when not zero. *)
Definition isoformat (t : datetime) : string :=
  let '(y, m, d) := ord2ymd (t / us_per_day + 1) in
  let rest := t mod us_per_day in
  let hh := rest / 3600000000 in
  let mm := (rest / 60000000) mod 60 in
  let ss := (rest / 1000000) mod 60 in
  let us := rest mod 1000000 in
  zero_pad 4 y ++ "-" ++ zero_pad 2 m ++ "-" ++ zero_pad 2 d ++ "T"
  ++ zero_pad 2 hh ++ ":" ++ zero_pad 2 mm ++ ":" ++ zero_pad 2 ss
  ++ (if us =? 0 then "" else "." ++ zero_pad 6 us).

(* ================================================================== *)
(** * [base64.b64encode] and [json.dumps] *)
(* ================================================================== *)

(** [s.encode()]: UTF-8, two bytes for a code point from 128 to 255. *)
Fixpoint utf8_encode (s : string) : list Z :=
  match s with
  | EmptyString => []
  | String c s' =>
      let n := Z.of_nat (nat_of_ascii c) in
      if n <? 128 then n :: utf8_encode s'
      else (192 + n / 64) :: (128 + n mod 64) :: utf8_encode s'
  end.

Definition b64_alphabet : string :=
  "ABCDEFGHIJKLMNOPQRSTUVWXYZabcdefghijklmnopqrstuvwxyz0123456789+/".

Definition b64_char (n : Z) : string :=
  match String.get (Z.to_nat n) b64_alphabet with
  | Some c => String c ""
  | None => ""
  end.

(** [base64.b64encode(bytes).decode()] *)
Fixpoint b64encode (bytes : list Z) : string :=
  match bytes with
  | [] => ""
  | [a] => b64_char (a / 4) ++ b64_char (a mod 4 * 16) ++ "=="
  | [a; b] =>
      b64_char (a / 4) ++ b64_char (a mod 4 * 16 + b / 16)
      ++ b64_char (b mod 16 * 4) ++ "="
  | a :: b :: c :: rest =>
      b64_char (a / 4) ++ b64_char (a mod 4 * 16 + b / 16)
      ++ b64_char (b mod 16 * 4 + c / 64) ++ b64_char (c mod 64)
      ++ b64encode rest
  end.

Definition newline : string := String "010"%char "".

(** A JSON string literal with [ensure_ascii]: everything outside
    U+0020..U+007E is escaped. *)
Definition json_string (s : string) : string :=
  let esc (c : ascii) : string :=
    let n := nat_of_ascii c in
    if Ascii.eqb c double_quote then String "\"%char (String double_quote "")
    else if Ascii.eqb c "\"%char then "\\"
    else if (n =? 8)%nat then "\b"
    else if (n =? 12)%nat then "\f"
    else if (n =? 10)%nat then "\n"
    else if (n =? 13)%nat then "\r"
    else if (n =? 9)%nat then "\t"
    else if ((32 <=? n) && (n <=? 126))%nat then String c ""
    else "\u00" ++ hex2 c in
  String double_quote (string_flat_map esc s) ++ String double_quote "".

Definition indentation (level : nat) : string :=
  repeat_char " "%char (2 * level).

(** One value at nesting depth [level], as [json.dumps(..., indent=2)]
    lays it out: one item per line, [","] between items, [": "] after a
    key, and an empty container on one line. *)
Fixpoint dumps_at (level : nat) (v : value) : string :=
  let open := newline ++ indentation (S level) in
  let sep := "," ++ open in
  let close := newline ++ indentation level in
  match v with
  | PyNone => "null"
  | PyBool b => if b then "true" else "false"
  | PyInt n => str_int n
  | PyStr s => json_string s
  | PyList [] => "[]"
  | PyList l =>
      "[" ++ open ++ join sep (map (dumps_at (S level)) l) ++ close ++ "]"
  | PyDict [] => "{}"
  | PyDict d =>
      "{" ++ open
      ++ join sep
           (map (fun kv => json_string (fst kv) ++ ": " ++ dumps_at (S level) (snd kv)) d)
      ++ close ++ "}"
  end.

(** [json.dumps(v, indent=2)] *)
Definition json_dumps (v : value) : string := dumps_at 0 v.

(* ================================================================== *)
(** * The outside world: wall clock and remote API *)
(* ================================================================== *)

(** What [client.request] is called with.  [params] is the query and
    [json] the body; a handler passes at most one of them. *)
Record request : Type := Request {
  req_method : string;
  req_url : string;
  req_headers : list (string * string);
  req_params : option value;
  req_json : option value
}.

(** What the transport gives back: a failure below HTTP, or a response
    with its status code, its body text and the outcome of
    [response.json()] on it (a decoding error message, or the value). *)
Inductive http_outcome : Type :=
| TransportFailure (msg : string)
| Response (status_code : Z) (text : string) (parsed : string + value).

(** The environment of one invocation: the successive readings of
    [datetime.now()] and the remote's answer to a request. *)
Record world : Type := World {
  clock : nat -> datetime;
  remote : request -> http_outcome
}.

(** What one invocation has done so far: how often it has read the
    clock, and the requests it has issued, oldest first. *)
Record state : Type := State {
  ticks : nat;
  sent : list request
}.

Definition initial : state := State 0 [].

(** Effectful code: it may raise, and the state survives the raise. *)
Definition M (A : Type) : Type := world -> state -> result A * state.

Definition ret {A} (a : A) : M A := fun _ s => (Ok a, s).

Definition raise {A} (e : exn) : M A := fun _ s => (Raise e, s).

Definition bind {A B} (m : M A) (k : A -> M B) : M B :=
  fun w s =>
    match m w s with
    | (Ok a, s') => k a w s'
    | (Raise e, s') => (Raise e, s')
    end.

(** A fallible expression without effects. *)
Definition lift {A} (r : result A) : M A := fun _ s => (r, s).

Declare Scope M_scope.
Delimit Scope M_scope with M.
Notation "x <- c ;; k" := (bind c (fun x => k))
  (at level 61, c at next level, right associativity) : M_scope.
Notation "' pat <- c ;; k" := (bind c (fun x => match x with pat => k end))
  (at level 61, pat pattern, c at next level, right associativity) : M_scope.

(** [datetime.now()] *)
Definition now : M datetime :=
  fun w s => (Ok (clock w (ticks s)), State (S (ticks s)) (sent s)).

(** [await client.request(...)] *)
Definition client_request (r : request) : M http_outcome :=
  fun w s => (Ok (remote w r), State (ticks s) (sent s ++ [r])).

(* ================================================================== *)
(** * [GongMCPServer] *)
(* ================================================================== *)

Record GongMCPServer : Type := Server {
  access_key : string;
  access_key_secret : string;
  base_url : string
}.

(** [__init__], given the two environment variables. *)
Definition init (key secret : option string) : result GongMCPServer :=
  match key, secret with
  | Some k, Some s =>
      if String.eqb k "" || String.eqb s "" then
        Raise (ValueError
          "Please set GONG_ACCESS_KEY and GONG_ACCESS_KEY_SECRET environment variables")
      else Ok (Server k s "https://api.gong.io/v2")
  | _, _ =>
      Raise (ValueError
        "Please set GONG_ACCESS_KEY and GONG_ACCESS_KEY_SECRET environment variables")
  end.

Section Handlers.

Variable self : GongMCPServer.

(** [200 <= status_code <= 299], the responses [raise_for_status] lets
    through. *)
Definition is_success (status_code : Z) : bool :=
  (200 <=? status_code) && (status_code <=? 299).

(** [make_gong_request(method, endpoint, **kwargs)] *)
Definition make_gong_request (method endpoint : string)
    (params json : option value) : M value :=
  let credentials := access_key self ++ ":" ++ access_key_secret self in
  let auth_header := b64encode (utf8_encode credentials) in
  let headers :=
    [("Content-Type", "application/json");
     ("Authorization", "Basic " ++ auth_header)] in
  (outcome <- client_request
                (Request method (base_url self ++ endpoint) headers params json) ;;
   match outcome with
   | Response status_code text parsed =>
       if is_success status_code then
         match parsed with
         | inr body => ret body
         | inl msg => raise (ValueError ("Request failed: " ++ msg))
         end
       else
         raise (ValueError
                  ("Gong API error " ++ str_int status_code ++ ": " ++ text))
   | TransportFailure msg => raise (ValueError ("Request failed: " ++ msg))
   end)%M.

(** The Date Window of [search_calls] and [list_scorecards]:
    [datetime.now() - timedelta(days=days_back)] and a second
    [datetime.now()], in that order. *)
Definition date_window (days_back : value) : M (datetime * datetime) :=
  (t <- now ;;
   delta <- lift (timedelta_days days_back) ;;
   from_dt <- lift (datetime_sub t delta) ;;
   to_dt <- now ;;
   ret (from_dt, to_dt))%M.

(** The body of the loop of [search_calls]: one remote call object
    becomes a Call Summary.  The entries are evaluated in the order of
    the dict display. *)
Definition format_call (call : value) : result value :=
  (id <- py_getitem_str call "id" ;;
   title <- py_get call "title" (PyStr "Untitled") ;;
   date <- py_get call "started" PyNone ;;
   duration <- py_get call "duration" PyNone ;;
   owner_obj <- py_get call "owner" (PyDict []) ;;
   owner <- py_get owner_obj "emailAddress" PyNone ;;
   participant_objs <- py_get call "participants" (PyList []) ;;
   ps <- py_iter participant_objs ;;
   participants <- map_result (fun p => py_get p "emailAddress" PyNone) ps ;;
   url <- py_get call "url" PyNone ;;
   Ok (PyDict [("id", id);
               ("title", title);
               ("date", date);
               ("duration", duration);
               ("owner", owner);
               ("participants", PyList participants);
               ("url", url)]))%result.

(** [search_calls(params)] *)
Definition search_calls (params : dict) : M value :=
  let days_back := dict_get params "days_back" (PyInt 7) in
  ('(from_dt, to_dt) <- date_window days_back ;;
   let from_date := isoformat from_dt ++ "Z" in
   let to_date := isoformat to_dt ++ "Z" in
   let filter : dict :=
     [("fromDateTime", PyStr from_date); ("toDateTime", PyStr to_date)] in
   (* Add optional filters *)
   filter <- (if truthy (dict_get params "owner_email" PyNone) then
                owner_email <- lift (py_getitem_str (PyDict params) "owner_email") ;;
                ret (dict_set "ownerEmails" (PyList [owner_email]) filter)
              else ret filter) ;;
   filter <- (if truthy (dict_get params "min_duration" PyNone) then
                min_duration <- lift (py_getitem_str (PyDict params) "min_duration") ;;
                ret (dict_set "minDuration" min_duration filter)
              else ret filter) ;;
   let request_body := PyDict [("filter", PyDict filter)] in
   (* Make API call *)
   result <- make_gong_request "GET" "/calls"
               (Some (PyDict [("fromDateTime", PyStr from_date);
                              ("toDateTime", PyStr to_date)]))
               None ;;
   (* Format the response *)
   listed <- lift (py_get result "calls" (PyList [])) ;;
   limited <- lift (py_slice_to 10 listed) ;;
   items <- lift (py_iter limited) ;;
   calls <- lift (map_result format_call items) ;;
   ret (PyDict [("found", PyInt (Z.of_nat (List.length calls)));
                ("calls", PyList calls)]))%M.

(** The body of the loop of [get_call_transcript]. *)
Definition format_sentence (sentence : value) : result value :=
  (speaker <- py_get sentence "speakerName" (PyStr "Unknown") ;;
   text <- py_get sentence "text" (PyStr "") ;;
   time <- py_get sentence "start" (PyInt 0) ;;
   Ok (PyDict [("speaker", speaker); ("text", text); ("time", time)]))%result.

(** [get_call_transcript(call_id)] *)
Definition get_call_transcript (call_id : value) : M value :=
  (result <- make_gong_request "POST" "/calls/transcript"
               None
               (Some (PyDict [("filter",
                               PyDict [("callIds", PyList [call_id])])])) ;;
   (* Parse the transcript *)
   transcripts <- lift (py_get result "callTranscripts" (PyList [])) ;;
   if negb (truthy transcripts) then
     ret (PyDict [("error", PyStr "No transcript found for this call")])
   else
     first <- lift (py_getitem_0 transcripts) ;;
     sentences <- lift (py_get first "sentences" (PyList [])) ;;
     (* Format into readable conversation *)
     limited <- lift (py_slice_to 50 sentences) ;;
     items <- lift (py_iter limited) ;;
     conversation <- lift (map_result format_sentence items) ;;
     total <- lift (py_len sentences) ;;
     ret (PyDict [("call_id", call_id);
                  ("conversation", PyList conversation);
                  ("total_sentences", PyInt total);
                  ("showing", PyInt (Z.min 50 total))]))%M.

(** [get_call_stats(call_id)] *)
Definition get_call_stats (call_id : value) : M value :=
  (result <- make_gong_request "GET" ("/calls/" ++ str call_id) None None ;;
   call <- lift (py_get result "call" (PyDict [])) ;;
   stats <- lift (py_get call "stats" (PyDict [])) ;;
   title <- lift (py_get call "title" PyNone) ;;
   duration_seconds <- lift (py_get call "duration" PyNone) ;;
   talk_ratio <- lift (py_get stats "talkRatio" PyNone) ;;
   longest_monologue <- lift (py_get stats "longestMonologue" PyNone) ;;
   questions_asked <- lift (py_get stats "questionsAsked" PyNone) ;;
   engagement_score <- lift (py_get stats "engagementScore" PyNone) ;;
   sentiment <- lift (py_get call "sentiment" PyNone) ;;
   ret (PyDict [("call_id", call_id);
                ("title", title);
                ("duration_seconds", duration_seconds);
                ("talk_ratio", talk_ratio);
                ("longest_monologue", longest_monologue);
                ("questions_asked", questions_asked);
                ("engagement_score", engagement_score);
                ("sentiment", sentiment)]))%M.

(** [list_scorecards(params)] *)
Definition list_scorecards (params : dict) : M value :=
  let days_back := dict_get params "days_back" (PyInt 30) in
  ('(from_dt, to_dt) <- date_window days_back ;;
   let from_date := isoformat from_dt ++ "Z" in
   result <- make_gong_request "POST" "/stats/scorecards"
               None
               (Some (PyDict [("filter",
                               PyDict [("fromDateTime", PyStr from_date);
                                       ("toDateTime",
                                        PyStr (isoformat to_dt ++ "Z"))])])) ;;
   scorecards <- lift (py_get result "scorecards" (PyList [])) ;;
   ret (PyDict [("period", PyStr ("Last " ++ str days_back ++ " days"));
                ("scorecards", scorecards)]))%M.

(** [types.Tool] *)
Record Tool : Type := Build_Tool {
  name : string;
  description : string;
  inputSchema : value
}.

(** [handle_list_tools()] *)
Definition handle_list_tools : list Tool :=
  [Build_Tool "search_calls"
     "Search for Gong calls with filters. Returns call recordings and metadata."
     (PyDict
        [("type", PyStr "object");
         ("properties",
          PyDict
            [("days_back",
              PyDict [("type", PyStr "integer");
                      ("description",
                       PyStr "Number of days back to search (default: 7)");
                      ("default", PyInt 7)]);
             ("owner_email",
              PyDict [("type", PyStr "string");
                      ("description",
                       PyStr "Filter by call owner email (optional)")]);
             ("min_duration",
              PyDict [("type", PyStr "integer");
                      ("description",
                       PyStr "Minimum call duration in seconds (optional)")]);
             ("keyword",
              PyDict [("type", PyStr "string");
                      ("description",
                       PyStr "Keyword to search in transcripts (optional)")])])]);
   Build_Tool "get_call_transcript"
     "Get the full transcript of a specific Gong call"
     (PyDict
        [("type", PyStr "object");
         ("properties",
          PyDict
            [("call_id",
              PyDict [("type", PyStr "string");
                      ("description", PyStr "The Gong call ID")])]);
         ("required", PyList [PyStr "call_id"])]);
   Build_Tool "get_call_stats"
     "Get statistics about a specific call (talk ratio, questions asked, etc.)"
     (PyDict
        [("type", PyStr "object");
         ("properties",
          PyDict
            [("call_id",
              PyDict [("type", PyStr "string");
                      ("description", PyStr "The Gong call ID")])]);
         ("required", PyList [PyStr "call_id"])]);
   Build_Tool "list_scorecards"
     "List all available Gong scorecards and their results"
     (PyDict
        [("type", PyStr "object");
         ("properties",
          PyDict
            [("days_back",
              PyDict [("type", PyStr "integer");
                      ("description",
                       PyStr "Number of days back to check scores (default: 30)");
                      ("default", PyInt 30)])])])].

(** [types.TextContent] *)
Record TextContent : Type := Build_TextContent {
  type : string;
  text : string
}.

(** [try: body  except Exception as e: handler(e)] *)
Definition try_except {A} (body : M A) (handler : exn -> M A) : M A :=
  fun w s =>
    match body w s with
    | (Ok a, s') => (Ok a, s')
    | (Raise e, s') => handler e w s'
    end.

(** [arguments or {}] *)
Definition or_empty (arguments : option dict) : dict :=
  match arguments with
  | Some d => if truthy (PyDict d) then d else []
  | None => []
  end.

(** [not arguments or "call_id" not in arguments] *)
Definition call_id_missing (arguments : option dict) : bool :=
  match arguments with
  | Some d => negb (truthy (PyDict d)) || negb (dict_contains "call_id" d)
  | None => true
  end.

(** [arguments["call_id"]] *)
Definition arguments_getitem (arguments : option dict) (k : string) : result value :=
  match arguments with
  | Some d => py_getitem_str (PyDict d) k
  | None => py_getitem_str PyNone k
  end.

(** [handle_call_tool(name, arguments)] *)
Definition handle_call_tool (name : string) (arguments : option dict)
    : M (list TextContent) :=
  try_except
    (result <-
       (if String.eqb name "search_calls" then
          search_calls (or_empty arguments)
        else if String.eqb name "get_call_transcript" then
          if call_id_missing arguments then
            raise (ValueError "call_id is required for get_call_transcript")
          else
            call_id <- lift (arguments_getitem arguments "call_id") ;;
            get_call_transcript call_id
        else if String.eqb name "get_call_stats" then
          if call_id_missing arguments then
            raise (ValueError "call_id is required for get_call_stats")
          else
            call_id <- lift (arguments_getitem arguments "call_id") ;;
            get_call_stats call_id
        else if String.eqb name "list_scorecards" then
          list_scorecards (or_empty arguments)
        else
          raise (ValueError ("Unknown tool: " ++ name))) ;;
     ret [Build_TextContent "text" (json_dumps result)])%M
    (fun e =>
       ret [Build_TextContent "text"
              (json_dumps (PyDict [("error", PyStr (str_exn e))]))]).

End Handlers.

(* ================================================================== *)
(** * Vocabulary of the properties *)
(* ================================================================== *)

(** One invocation, started in the [initial] state: what it returns and
    which requests it hands to [client.request]. *)
Definition outcome {A} (m : M A) (w : world) : result A := fst (m w initial).

Definition issued {A} (m : M A) (w : world) : list request :=
  sent (snd (m w initial)).

(** The two shapes of the text envelope. *)
Definition result_envelope (v : value) : list TextContent :=
  [Build_TextContent "text" (json_dumps v)].

Definition error_envelope (msg : string) : list TextContent :=
  result_envelope (PyDict [("error", PyStr msg)]).

(** [sub in s] *)
Definition contains (sub s : string) : Prop :=
  exists pre post, s = pre ++ sub ++ post.

(** The request [make_gong_request] builds. *)
Definition gong_request (self : GongMCPServer) (method endpoint : string)
    (params json : option value) : request :=
  Request method (base_url self ++ endpoint)
    [("Content-Type", "application/json");
     ("Authorization",
      "Basic " ++ b64encode (utf8_encode
                    (access_key self ++ ":" ++ access_key_secret self)))]
    params json.

(** What [make_gong_request] makes of the remote's answer. *)
Definition interpret (o : http_outcome) : result value :=
  match o with
  | Response status_code text parsed =>
      if is_success status_code then
        match parsed with
        | inr body => Ok body
        | inl msg => Raise (ValueError ("Request failed: " ++ msg))
        end
      else
        Raise (ValueError
                 ("Gong API error " ++ str_int status_code ++ ": " ++ text))
  | TransportFailure msg => Raise (ValueError ("Request failed: " ++ msg))
  end.

(** Destructs the scrutinee of the first [match] left in the goal. *)
Ltac step :=
  match goal with
  | |- context [match ?x with _ => _ end] => destruct x eqn:?
  end.

Ltac run_pure := unfold bind, lift, ret, rbind; repeat step; reflexivity.

(** The formatting stage of [search_calls], lines 197-212. *)
Definition search_calls_format (payload : value) : result value :=
  (listed <- py_get payload "calls" (PyList []) ;;
   limited <- py_slice_to 10 listed ;;
   items <- py_iter limited ;;
   calls <- map_result format_call items ;;
   Ok (PyDict [("found", PyInt (Z.of_nat (List.length calls)));
               ("calls", PyList calls)]))%result.

(** The request of [search_calls] for a Date Window. *)
Definition search_calls_request (self : GongMCPServer)
    (window : datetime * datetime) : request :=
  gong_request self "GET" "/calls"
    (Some (PyDict [("fromDateTime", PyStr (isoformat (fst window) ++ "Z"));
                   ("toDateTime", PyStr (isoformat (snd window) ++ "Z"))]))
    None.

(** The formatting stage of [get_call_transcript], lines 223-243. *)
Definition get_call_transcript_format (call_id payload : value) : result value :=
  (transcripts <- py_get payload "callTranscripts" (PyList []) ;;
   if negb (truthy transcripts) then
     Ok (PyDict [("error", PyStr "No transcript found for this call")])
   else
     first <- py_getitem_0 transcripts ;;
     sentences <- py_get first "sentences" (PyList []) ;;
     limited <- py_slice_to 50 sentences ;;
     items <- py_iter limited ;;
     conversation <- map_result format_sentence items ;;
     total <- py_len sentences ;;
     Ok (PyDict [("call_id", call_id);
                 ("conversation", PyList conversation);
                 ("total_sentences", PyInt total);
                 ("showing", PyInt (Z.min 50 total))]))%result.

Definition get_call_transcript_request (self : GongMCPServer)
    (call_id : value) : request :=
  gong_request self "POST" "/calls/transcript" None
    (Some (PyDict [("filter", PyDict [("callIds", PyList [call_id])])])).

(** The formatting stage of [get_call_stats], lines 252-264. *)
Definition get_call_stats_format (call_id payload : value) : result value :=
  (call <- py_get payload "call" (PyDict []) ;;
   stats <- py_get call "stats" (PyDict []) ;;
   title <- py_get call "title" PyNone ;;
   duration_seconds <- py_get call "duration" PyNone ;;
   talk_ratio <- py_get stats "talkRatio" PyNone ;;
   longest_monologue <- py_get stats "longestMonologue" PyNone ;;
   questions_asked <- py_get stats "questionsAsked" PyNone ;;
   engagement_score <- py_get stats "engagementScore" PyNone ;;
   sentiment <- py_get call "sentiment" PyNone ;;
   Ok (PyDict [("call_id", call_id);
               ("title", title);
               ("duration_seconds", duration_seconds);
               ("talk_ratio", talk_ratio);
               ("longest_monologue", longest_monologue);
               ("questions_asked", questions_asked);
               ("engagement_score", engagement_score);
               ("sentiment", sentiment)]))%result.

Definition get_call_stats_request (self : GongMCPServer)
    (call_id : value) : request :=
  gong_request self "GET" ("/calls/" ++ str call_id) None None.

(** The formatting stage of [list_scorecards], lines 282-285. *)
Definition list_scorecards_format (days_back payload : value) : result value :=
  (scorecards <- py_get payload "scorecards" (PyList []) ;;
   Ok (PyDict [("period", PyStr ("Last " ++ str days_back ++ " days"));
               ("scorecards", scorecards)]))%result.

Definition list_scorecards_request (self : GongMCPServer)
    (window : datetime * datetime) : request :=
  gong_request self "POST" "/stats/scorecards" None
    (Some (PyDict
             [("filter",
               PyDict [("fromDateTime", PyStr (isoformat (fst window) ++ "Z"));
                       ("toDateTime", PyStr (isoformat (snd window) ++ "Z"))])])).

(** The envelope of a handler's result, or of the exception it raised. *)
Definition envelope (r : result value) : list TextContent :=
  match r with
  | Ok v => result_envelope v
  | Raise e => error_envelope (str_exn e)
  end.

(** The [try] block of [handle_call_tool] up to the assignment of
    [result]. *)
Definition dispatch (self : GongMCPServer) (name : string)
    (arguments : option dict) : M value :=
  if String.eqb name "search_calls" then
    search_calls self (or_empty arguments)
  else if String.eqb name "get_call_transcript" then
    if call_id_missing arguments then
      raise (ValueError "call_id is required for get_call_transcript")
    else
      bind (lift (arguments_getitem arguments "call_id"))
           (get_call_transcript self)
  else if String.eqb name "get_call_stats" then
    if call_id_missing arguments then
      raise (ValueError "call_id is required for get_call_stats")
    else
      bind (lift (arguments_getitem arguments "call_id"))
           (get_call_stats self)
  else if String.eqb name "list_scorecards" then
    list_scorecards self (or_empty arguments)
  else
    raise (ValueError ("Unknown tool: " ++ name)).

Definition is_dict (v : value) : bool :=
  match v with
  | PyDict _ => true
  | _ => false
  end.

(** A call object that has an [id], whose [owner] is absent or an
    object, and whose [participants] are absent or a list of objects. *)
Definition well_shaped_call (call : value) : bool :=
  match call with
  | PyDict d =>
      dict_contains "id" d
      && is_dict (dict_get d "owner" (PyDict []))
      && match dict_get d "participants" (PyList []) with
         | PyList ps => forallb is_dict ps
         | _ => false
         end
  | _ => false
  end.

(* ------------------------------------------------------------------ *)
(** ** Concrete servers, clocks and remotes *)
(* ------------------------------------------------------------------ *)

(** A server, a clock ticking every millisecond from
    2026-11-10T00:00:00.000005, and a remote with one fixed answer, for
    the concrete runs below. *)
Definition example_server : GongMCPServer :=
  Server "key" "secret" "https://api.gong.io/v2".

Definition example_clock (k : nat) : datetime :=
  63929865600000005 + Z.of_nat k * 1000.

Definition example_world (answer : http_outcome) : world :=
  World example_clock (fun _ => answer).

Definition example_search_world : world :=
  example_world (Response 200 "" (inr (PyDict [("calls", PyList [])]))).

Definition example_params1 : dict :=
  [("days_back", PyInt 1); ("owner_email", PyStr "a@b.c");
   ("min_duration", PyInt 600); ("keyword", PyStr "price")].

Definition example_params2 : dict :=
  [("keyword", PyNone); ("days_back", PyInt 1)].



(** A remote that lists twelve calls. *)
Definition twelve_calls : list value :=
  List.repeat (PyDict [("id", PyStr "c"); ("title", PyStr "Weekly sync")]) 12.

Definition twelve_calls_world : world :=
  example_world (Response 200 "" (inr (PyDict [("calls", PyList twelve_calls)]))).

(** The request a search with the default [days_back] issues at the
    example clock. *)
Definition example_search_request : request :=
  search_calls_request example_server
    (example_clock 0 - 7 * us_per_day, example_clock 1).

(** A payload whose only call has an [id] and a null [owner]. *)
Definition null_owner_world : world :=
  example_world
    (Response 200 ""
       (inr (PyDict [("calls",
                      PyList [PyDict [("id", PyStr "c1");
                                      ("owner", PyNone)]])]))).

Definition example_transcript_request : request :=
  get_call_transcript_request example_server (PyStr "X").

(** A transcript of sixty sentences. *)
Definition sixty_sentences : list value :=
  List.repeat (PyDict [("speakerName", PyStr "Ann"); ("text", PyStr "Hello")]) 60.

Definition sixty_sentences_payload : dict :=
  [("callTranscripts", PyList [PyDict [("sentences", PyList sixty_sentences)]])].

Definition sixty_sentences_world : world :=
  example_world (Response 200 "" (inr (PyDict sixty_sentences_payload))).

(* ------------------------------------------------------------------ *)
(** ** Vocabulary of the further properties *)
(* ------------------------------------------------------------------ *)

(** The headers every request carries. *)
Definition gong_headers (self : GongMCPServer) : list (string * string) :=
  [("Content-Type", "application/json");
   ("Authorization",
    "Basic " ++ b64encode (utf8_encode
                  (access_key self ++ ":" ++ access_key_secret self)))].

(** Which handler an invocation reaches, with the request it issues and
    the formatting stage its answer goes through. *)
Inductive reaches (self : GongMCPServer) (w : world) (s : state)
    : string -> option dict -> request -> (value -> result value) -> Prop :=
| reaches_search_calls arguments window s1 :
    date_window (dict_get (or_empty arguments) "days_back" (PyInt 7)) w s =
      (Ok window, s1) ->
    reaches self w s "search_calls" arguments
      (search_calls_request self window) search_calls_format
| reaches_get_call_transcript d call_id :
    dict_lookup "call_id" d = Some call_id ->
    reaches self w s "get_call_transcript" (Some d)
      (get_call_transcript_request self call_id)
      (get_call_transcript_format call_id)
| reaches_get_call_stats d call_id :
    dict_lookup "call_id" d = Some call_id ->
    reaches self w s "get_call_stats" (Some d)
      (get_call_stats_request self call_id)
      (get_call_stats_format call_id)
| reaches_list_scorecards arguments window s1 :
    date_window (dict_get (or_empty arguments) "days_back" (PyInt 30)) w s =
      (Ok window, s1) ->
    reaches self w s "list_scorecards" arguments
      (list_scorecards_request self window)
      (list_scorecards_format
         (dict_get (or_empty arguments) "days_back" (PyInt 30))).

(** The names [handle_list_tools] advertises. *)
Definition advertised : list string := map name handle_list_tools.

(** [schema["properties"][k].get("default")] of a tool's input schema. *)
Definition schema_default (t : Tool) (k : string) : option value :=
  match inputSchema t with
  | PyDict schema =>
      match dict_lookup "properties" schema with
      | Some (PyDict properties) =>
          match dict_lookup k properties with
          | Some (PyDict property) => dict_lookup "default" property
          | _ => None
          end
      | _ => None
      end
  | _ => None
  end.

(** [k in schema.get("required", [])] *)
Definition schema_requires (t : Tool) (k : string) : bool :=
  match inputSchema t with
  | PyDict schema =>
      match dict_lookup "required" schema with
      | Some (PyList required) =>
          existsb (fun v => match v with
                            | PyStr r => String.eqb r k
                            | _ => false
                            end) required
      | _ => false
      end
  | _ => false
  end.

(** A call object on which the loop body of [search_calls] does not
    raise: it has an [id], its [owner] is absent or an object, and
    iterating its [participants] (absent, a list, an empty string or an
    empty object) yields objects only. *)
Definition summarizable (call : value) : bool :=
  match call with
  | PyDict d =>
      dict_contains "id" d
      && is_dict (dict_get d "owner" (PyDict []))
      && match dict_get d "participants" (PyList []) with
         | PyList ps => forallb is_dict ps
         | PyStr text => String.eqb text ""
         | PyDict keys => match keys with [] => true | _ => false end
         | _ => false
         end
  | _ => false
  end.

(** Neither an [int] nor a [bool]: what [timedelta(days=...)] rejects. *)
Definition not_a_day_count (v : value) : bool :=
  match v with
  | PyInt _ | PyBool _ => false
  | _ => true
  end.

(** A character of the range U+0020..U+007E, or a line feed. *)
Definition plain_ascii (c : ascii) : bool :=
  let n := nat_of_ascii c in
  ((32 <=? n) && (n <=? 126) || (n =? 10))%nat.

Fixpoint string_forallb (p : ascii -> bool) (s : string) : bool :=
  match s with
  | EmptyString => true
  | String c s' => p c && string_forallb p s'
  end.

(** Null, a [bool] or an [int]: a value that can be neither sliced nor
    iterated. *)
Definition is_scalar (v : value) : bool :=
  match v with
  | PyNone | PyBool _ | PyInt _ => true
  | _ => false
  end.

(** A world in which the network is down. *)
Definition offline_world : world :=
  World example_clock (fun _ => TransportFailure "All connection attempts failed").

(* ================================================================== *)
(** * Properties of the adapter *)
(* ================================================================== *)

(* ------------------------------------------------------------------ *)
(** ** The library models on known values *)
(* ------------------------------------------------------------------ *)

Example isoformat_first_instant : isoformat 0 = "0001-01-01T00:00:00".
Proof. vm_compute. reflexivity. Qed.

Example isoformat_leap_day :
  isoformat 63844802096000250 = "2024-02-29T11:14:56.000250".
Proof. vm_compute. reflexivity. Qed.

Example isoformat_example_clock :
  isoformat (example_clock 0) = "2026-11-10T00:00:00.000005".
Proof. vm_compute. reflexivity. Qed.

Example b64encode_credentials :
  b64encode (utf8_encode "key:secret") = "a2V5OnNlY3JldA==".
Proof. vm_compute. reflexivity. Qed.

Example repr_nested :
  repr (PyList [PyInt 1; PyStr "a"; PyNone; PyDict [("k", PyBool false)]]) =
  "[1, 'a', None, {'k': False}]".
Proof. vm_compute. reflexivity. Qed.

Example json_dumps_error :
  json_dumps (PyDict [("error", PyStr "Unknown tool: delete_call")]) =
  "{" ++ newline ++ "  " ++ json_string "error" ++ ": "
  ++ json_string "Unknown tool: delete_call" ++ newline ++ "}".
Proof. vm_compute. reflexivity. Qed.

Example timedelta_days_rejects_text :
  timedelta_days (PyStr "7") =
  Raise (TypeError "unsupported type for timedelta days component: str").
Proof. reflexivity. Qed.

(** [search_calls({days_back: 1})] against a remote that lists three
    calls. *)
Example search_three_calls :
  outcome (search_calls example_server [("days_back", PyInt 1)])
    (example_world
       (Response 200 ""
          (inr (PyDict [("calls",
                         PyList [PyDict [("id", PyStr "1")];
                                 PyDict [("id", PyStr "2")];
                                 PyDict [("id", PyStr "3")]])])))) =
  Ok (PyDict
        [("found", PyInt 3);
         ("calls",
          PyList
            (map (fun id =>
                    PyDict [("id", PyStr id);
                            ("title", PyStr "Untitled");
                            ("date", PyNone);
                            ("duration", PyNone);
                            ("owner", PyNone);
                            ("participants", PyList []);
                            ("url", PyNone)])
                 ["1"; "2"; "3"]))]).
Proof. vm_compute. reflexivity. Qed.

(** The search request at the example clock, for [days_back = 1]. *)
Example search_request_for_one_day :
  issued (search_calls example_server [("days_back", PyInt 1)])
    example_search_world =
  [Request "GET" "https://api.gong.io/v2/calls"
     [("Content-Type", "application/json");
      ("Authorization", "Basic a2V5OnNlY3JldA==")]
     (Some (PyDict [("fromDateTime", PyStr "2026-11-09T00:00:00.000005Z");
                    ("toDateTime", PyStr "2026-11-10T00:00:00.001005Z")]))
     None].
Proof. vm_compute. reflexivity. Qed.

(** A [days_back] that reaches before year 1 ends in the error
    envelope, and nothing is sent. *)
Example search_too_far_back :
  handle_call_tool example_server "search_calls"
    (Some [("days_back", PyInt 1000000)]) example_search_world initial =
  (Ok (error_envelope "date value out of range"), State 1 []).
Proof. vm_compute. reflexivity. Qed.

(* ------------------------------------------------------------------ *)
(** ** Strings *)
(* ------------------------------------------------------------------ *)

Lemma append_empty_r (s : string) : s ++ "" = s.
Proof. induction s as [| c s IH]; [reflexivity | cbn; f_equal; exact IH]. Qed.

Lemma append_assoc (a b c : string) : (a ++ b) ++ c = a ++ b ++ c.
Proof. induction a as [| x a IH]; [reflexivity | cbn; f_equal; exact IH]. Qed.

Lemma contains_middle (pre sub post : string) :
  contains sub (pre ++ sub ++ post).
Proof. exists pre, post. reflexivity. Qed.

(* ------------------------------------------------------------------ *)
(** ** The request executor *)
(* ------------------------------------------------------------------ *)

(** [make_gong_request] issues exactly one request, whatever comes back. *)
Lemma make_gong_request_run self method endpoint params json w s :
  make_gong_request self method endpoint params json w s =
  (interpret (remote w (gong_request self method endpoint params json)),
   State (ticks s)
         (sent s ++ [gong_request self method endpoint params json])).
Proof.
  unfold make_gong_request, bind, client_request, interpret, gong_request.
  destruct (remote w _) as [msg | code body parsed]; [reflexivity |].
  destruct (is_success code); [destruct parsed |]; reflexivity.
Qed.

(* ------------------------------------------------------------------ *)
(** ** The dispatch layer: validation and unknown names *)
(* ------------------------------------------------------------------ *)

Lemma call_id_missing_true arguments :
  arguments = None \/
  (exists d, arguments = Some d /\ dict_lookup "call_id" d = None) ->
  call_id_missing arguments = true.
Proof.
  intros [-> | (d & -> & H)]; [reflexivity |].
  unfold call_id_missing, dict_contains. rewrite H.
  apply orb_true_r.
Qed.

(** C5.  When the transcript or the stats operation is invoked with no
    argument map, or with one that lacks [call_id], the dispatch layer
    answers with the error envelope and the state of the invocation is
    untouched: no request has been handed to the request executor (and
    the clock has not been read).  The other two operations have no
    required argument. *)
Theorem missing_call_id_is_rejected_before_any_request
    self name arguments w s :
  name = "get_call_transcript" \/ name = "get_call_stats" ->
  arguments = None \/
  (exists d, arguments = Some d /\ dict_lookup "call_id" d = None) ->
  handle_call_tool self name arguments w s =
    (Ok (error_envelope ("call_id is required for " ++ name)), s)
  /\ issued (handle_call_tool self name arguments) w = [].
Proof.
  intros Hname Hargs.
  apply call_id_missing_true in Hargs.
  assert (forall s0, handle_call_tool self name arguments w s0 =
            (Ok (error_envelope ("call_id is required for " ++ name)), s0))
    as Hrun.
  { intros s0. unfold handle_call_tool, try_except.
    destruct Hname as [-> | ->]; cbn [String.eqb Ascii.eqb Bool.eqb];
      rewrite Hargs; reflexivity. }
  split; [apply Hrun |].
  unfold issued. rewrite Hrun. reflexivity.
Qed.

Lemma missing_call_id_witness :
  handle_call_tool (Server "k" "s" "https://api.gong.io/v2")
    "get_call_stats" (Some [("id", PyStr "7")])
    (World (fun _ => 0) (fun _ => TransportFailure "down")) initial =
    (Ok (error_envelope "call_id is required for get_call_stats"), initial)
  /\ issued (handle_call_tool (Server "k" "s" "https://api.gong.io/v2")
               "get_call_stats" (Some [("id", PyStr "7")]))
       (World (fun _ => 0) (fun _ => TransportFailure "down")) = [].
Proof.
  apply (missing_call_id_is_rejected_before_any_request
           (Server "k" "s" "https://api.gong.io/v2") "get_call_stats"
           (Some [("id", PyStr "7")])).
  - right. reflexivity.
  - right. exists [("id", PyStr "7")]. split; reflexivity.
Defined.

(** C7.  A name that is none of the four operation names is answered
    with the error envelope ["Unknown tool: <name>"], which mentions the
    name; the state of the invocation is untouched, so no handler has
    read the clock or issued a request. *)
Theorem unknown_tool_is_rejected self name arguments w s :
  name <> "search_calls" ->
  name <> "get_call_transcript" ->
  name <> "get_call_stats" ->
  name <> "list_scorecards" ->
  handle_call_tool self name arguments w s =
    (Ok (error_envelope ("Unknown tool: " ++ name)), s)
  /\ contains name ("Unknown tool: " ++ name)
  /\ issued (handle_call_tool self name arguments) w = [].
Proof.
  intros H1 H2 H3 H4.
  apply String.eqb_neq in H1, H2, H3, H4.
  assert (forall s0, handle_call_tool self name arguments w s0 =
            (Ok (error_envelope ("Unknown tool: " ++ name)), s0)) as Hrun.
  { intros s0. unfold handle_call_tool, try_except.
    unfold bind at 1. rewrite H1, H2, H3, H4. reflexivity. }
  split; [apply Hrun |]. split.
  - exists "Unknown tool: ", "". rewrite append_empty_r. reflexivity.
  - unfold issued. rewrite Hrun. reflexivity.
Qed.

Lemma unknown_tool_witness :
  handle_call_tool (Server "k" "s" "https://api.gong.io/v2")
    "delete_call" None
    (World (fun _ => 0) (fun _ => TransportFailure "down")) initial =
    (Ok (error_envelope "Unknown tool: delete_call"), initial)
  /\ contains "delete_call" "Unknown tool: delete_call"
  /\ issued (handle_call_tool (Server "k" "s" "https://api.gong.io/v2")
               "delete_call" None)
       (World (fun _ => 0) (fun _ => TransportFailure "down")) = [].
Proof.
  apply (unknown_tool_is_rejected
           (Server "k" "s" "https://api.gong.io/v2") "delete_call" None);
    discriminate.
Defined.

(* ------------------------------------------------------------------ *)
(** ** The handlers as: effects first, then a pure formatting stage *)
(* ------------------------------------------------------------------ *)

Lemma date_window_run days_back w s :
  date_window days_back w s =
  match (delta <- timedelta_days days_back ;;
         datetime_sub (clock w (ticks s)) delta)%result with
  | Ok from_dt =>
      (Ok (from_dt, clock w (S (ticks s))), State (S (S (ticks s))) (sent s))
  | Raise e => (Raise e, State (S (ticks s)) (sent s))
  end.
Proof. unfold date_window, now. run_pure. Qed.

(** An optional filter is added without raising: a truthy
    [params.get(k)] means that [params[k]] exists. *)
Lemma optional_filter_run params k (add : value -> dict) (filter : dict) w s :
  (if truthy (dict_get params k PyNone) then
     bind (lift (py_getitem_str (PyDict params) k)) (fun v => ret (add v))
   else ret filter) w s =
  (Ok (if truthy (dict_get params k PyNone)
       then add (dict_get params k PyNone) else filter), s).
Proof.
  unfold dict_get, bind, lift, ret, py_getitem_str.
  destruct (dict_lookup k params) as [v |]; cbn [truthy];
    [destruct (truthy v) |]; reflexivity.
Qed.

(** [search_calls] reads [days_back] and nothing else of [params]: the
    filter it builds from [owner_email] and [min_duration] is dropped. *)
Lemma search_calls_run self params w s :
  search_calls self params w s =
  match date_window (dict_get params "days_back" (PyInt 7)) w s with
  | (Ok window, s1) =>
      (rbind (interpret (remote w (search_calls_request self window)))
             search_calls_format,
       State (ticks s1) (sent s1 ++ [search_calls_request self window]))
  | (Raise e, s1) => (Raise e, s1)
  end.
Proof.
  unfold search_calls.
  unfold bind at 1.
  destruct (date_window _ w s) as [[[from_dt to_dt] | e] s1];
    [| reflexivity].
  unfold bind at 1. rewrite optional_filter_run.
  unfold bind at 1. rewrite optional_filter_run.
  unfold bind at 1. rewrite make_gong_request_run.
  unfold search_calls_request, search_calls_format. cbn [fst snd].
  destruct (interpret _) as [result | e]; [| reflexivity].
  cbn [rbind]. run_pure.
Qed.

Lemma get_call_transcript_run self call_id w s :
  get_call_transcript self call_id w s =
  (rbind (interpret (remote w (get_call_transcript_request self call_id)))
         (get_call_transcript_format call_id),
   State (ticks s) (sent s ++ [get_call_transcript_request self call_id])).
Proof.
  unfold get_call_transcript.
  unfold bind at 1. rewrite make_gong_request_run.
  unfold get_call_transcript_request, get_call_transcript_format.
  destruct (interpret _) as [payload | e]; [| reflexivity].
  cbn [rbind]. run_pure.
Qed.

Lemma get_call_stats_run self call_id w s :
  get_call_stats self call_id w s =
  (rbind (interpret (remote w (get_call_stats_request self call_id)))
         (get_call_stats_format call_id),
   State (ticks s) (sent s ++ [get_call_stats_request self call_id])).
Proof.
  unfold get_call_stats.
  unfold bind at 1. rewrite make_gong_request_run.
  unfold get_call_stats_request, get_call_stats_format.
  destruct (interpret _) as [payload | e]; [| reflexivity].
  cbn [rbind]. run_pure.
Qed.

Lemma list_scorecards_run self params w s :
  list_scorecards self params w s =
  match date_window (dict_get params "days_back" (PyInt 30)) w s with
  | (Ok window, s1) =>
      (rbind (interpret (remote w (list_scorecards_request self window)))
             (list_scorecards_format (dict_get params "days_back" (PyInt 30))),
       State (ticks s1) (sent s1 ++ [list_scorecards_request self window]))
  | (Raise e, s1) => (Raise e, s1)
  end.
Proof.
  unfold list_scorecards.
  unfold bind at 1.
  destruct (date_window _ w s) as [[[from_dt to_dt] | e] s1]; [| reflexivity].
  unfold bind at 1. rewrite make_gong_request_run.
  unfold list_scorecards_request, list_scorecards_format. cbn [fst snd].
  destruct (interpret _) as [payload | e]; [| reflexivity].
  cbn [rbind]. run_pure.
Qed.

(** The state after a Date Window: the clock has been read, nothing has
    been sent. *)
Lemma date_window_sent days_back w s :
  sent (snd (date_window days_back w s)) = sent s.
Proof.
  rewrite date_window_run.
  destruct (rbind _ _); reflexivity.
Qed.

(* ------------------------------------------------------------------ *)
(** ** The dispatch layer: one envelope per invocation *)
(* ------------------------------------------------------------------ *)

(** [handle_call_tool] never raises: whatever the [try] block does ends
    up in an envelope. *)
Lemma handle_call_tool_run self name arguments w s :
  handle_call_tool self name arguments w s =
  (Ok (envelope (fst (dispatch self name arguments w s))),
   snd (dispatch self name arguments w s)).
Proof.
  unfold handle_call_tool, try_except.
  change (bind _ _ w s) with
    (bind (dispatch self name arguments)
          (fun r => ret [Build_TextContent "text" (json_dumps r)]) w s).
  unfold bind.
  destruct (dispatch self name arguments w s) as [[v | e] s']; reflexivity.
Qed.

Lemma or_empty_some (d : dict) : or_empty (Some d) = d.
Proof. destruct d; reflexivity. Qed.

(** With [call_id] present [arguments["call_id"]] is its value. *)
Lemma call_id_present d call_id :
  dict_lookup "call_id" d = Some call_id ->
  call_id_missing (Some d) = false
  /\ arguments_getitem (Some d) "call_id" = Ok call_id.
Proof.
  intros H. unfold call_id_missing, dict_contains, arguments_getitem,
    py_getitem_str. rewrite H.
  destruct d; [discriminate | split; reflexivity].
Qed.

Lemma call_id_missing_false arguments :
  call_id_missing arguments = false ->
  exists d call_id,
    arguments = Some d /\ dict_lookup "call_id" d = Some call_id.
Proof.
  destruct arguments as [d |]; [| discriminate].
  unfold call_id_missing, dict_contains.
  destruct (dict_lookup "call_id" d) as [v |] eqn:E.
  - intros _. exists d, v. split; [reflexivity | exact E].
  - rewrite orb_true_r. discriminate.
Qed.

Lemma dispatch_get_call_transcript self d call_id w s :
  dict_lookup "call_id" d = Some call_id ->
  dispatch self "get_call_transcript" (Some d) w s =
  get_call_transcript self call_id w s.
Proof.
  intros H. destruct (call_id_present d call_id H) as [Hm Hg].
  unfold dispatch. cbn [String.eqb Ascii.eqb Bool.eqb].
  rewrite Hm. unfold bind, lift. rewrite Hg. reflexivity.
Qed.

Lemma dispatch_get_call_stats self d call_id w s :
  dict_lookup "call_id" d = Some call_id ->
  dispatch self "get_call_stats" (Some d) w s =
  get_call_stats self call_id w s.
Proof.
  intros H. destruct (call_id_present d call_id H) as [Hm Hg].
  unfold dispatch. cbn [String.eqb Ascii.eqb Bool.eqb].
  rewrite Hm. unfold bind, lift. rewrite Hg. reflexivity.
Qed.

(** Every invocation hands at most one request to the executor, and
    when it does, its result is the remote's answer passed through some
    formatting stage. *)
Lemma dispatch_single_request self name arguments w s :
  sent (snd (dispatch self name arguments w s)) = sent s
  \/ exists req format,
       sent (snd (dispatch self name arguments w s)) = (sent s ++ [req])%list
       /\ fst (dispatch self name arguments w s) =
          rbind (interpret (remote w req)) format.
Proof.
  unfold dispatch.
  destruct (String.eqb name "search_calls").
  { rewrite search_calls_run.
    pose proof (date_window_sent
                  (dict_get (or_empty arguments) "days_back" (PyInt 7)) w s)
      as Hs.
    destruct (date_window _ w s) as [[window | e] s1]; cbn [fst snd] in *.
    - right. exists (search_calls_request self window), search_calls_format.
      rewrite Hs. split; reflexivity.
    - left. exact Hs. }
  destruct (String.eqb name "get_call_transcript").
  { destruct (call_id_missing arguments) eqn:Hm; [left; reflexivity |].
    destruct (call_id_missing_false _ Hm) as (d & call_id & -> & Hl).
    destruct (call_id_present d call_id Hl) as [_ Hg].
    unfold bind, lift. rewrite Hg, get_call_transcript_run. right.
    exists (get_call_transcript_request self call_id),
      (get_call_transcript_format call_id).
    split; reflexivity. }
  destruct (String.eqb name "get_call_stats").
  { destruct (call_id_missing arguments) eqn:Hm; [left; reflexivity |].
    destruct (call_id_missing_false _ Hm) as (d & call_id & -> & Hl).
    destruct (call_id_present d call_id Hl) as [_ Hg].
    unfold bind, lift. rewrite Hg, get_call_stats_run. right.
    exists (get_call_stats_request self call_id),
      (get_call_stats_format call_id).
    split; reflexivity. }
  destruct (String.eqb name "list_scorecards").
  { rewrite list_scorecards_run.
    pose proof (date_window_sent
                  (dict_get (or_empty arguments) "days_back" (PyInt 30)) w s)
      as Hs.
    destruct (date_window _ w s) as [[window | e] s1]; cbn [fst snd] in *.
    - right. exists (list_scorecards_request self window),
        (list_scorecards_format
           (dict_get (or_empty arguments) "days_back" (PyInt 30))).
      rewrite Hs. split; reflexivity.
    - left. exact Hs. }
  left. reflexivity.
Qed.

(** C6.  Whatever the operation and its arguments: when the request the
    invocation issued is answered with a status code outside 200..299,
    the invocation still ends with an envelope, the error envelope
    ["Gong API error <status>: <body text>"], whose message contains the
    decimal status code and the raw body text. *)
Theorem non_2xx_status_surfaces_in_error_envelope
    self name arguments w req status_code text parsed :
  In req (issued (handle_call_tool self name arguments) w) ->
  remote w req = Response status_code text parsed ->
  is_success status_code = false ->
  outcome (handle_call_tool self name arguments) w =
    Ok (error_envelope
          ("Gong API error " ++ str_int status_code ++ ": " ++ text))
  /\ contains (str_int status_code)
       ("Gong API error " ++ str_int status_code ++ ": " ++ text)
  /\ contains text
       ("Gong API error " ++ str_int status_code ++ ": " ++ text).
Proof.
  unfold issued, outcome. rewrite handle_call_tool_run. cbn [fst snd].
  intros Hin Hremote Hstatus.
  split; [| split].
  - destruct (dispatch_single_request self name arguments w initial)
      as [Hs | (req0 & format & Hs & Hr)];
      rewrite Hs in Hin; cbn in Hin; [contradiction |].
    destruct Hin as [<- | []].
    rewrite Hr, Hremote. unfold interpret. rewrite Hstatus. reflexivity.
  - apply contains_middle.
  - exists ("Gong API error " ++ str_int status_code ++ ": "), "".
    rewrite append_empty_r, !append_assoc. reflexivity.
Qed.

Lemma non_2xx_status_witness :
  outcome (handle_call_tool example_server "get_call_stats"
             (Some [("call_id", PyStr "X")]))
    (example_world (Response 404 "not found" (inl "Expecting value"))) =
    Ok (error_envelope "Gong API error 404: not found")
  /\ contains "404" "Gong API error 404: not found"
  /\ contains "not found" "Gong API error 404: not found".
Proof.
  apply (non_2xx_status_surfaces_in_error_envelope
           example_server "get_call_stats" (Some [("call_id", PyStr "X")])
           (example_world (Response 404 "not found" (inl "Expecting value")))
           (get_call_stats_request example_server (PyStr "X"))
           404 "not found" (inl "Expecting value")).
  - vm_compute. left. reflexivity.
  - reflexivity.
  - reflexivity.
Defined.

(* ------------------------------------------------------------------ *)
(** ** Search: only [days_back] matters *)
(* ------------------------------------------------------------------ *)

Lemma dispatch_search_calls self arguments w s :
  dispatch self "search_calls" arguments w s =
  search_calls self (or_empty arguments) w s.
Proof. reflexivity. Qed.

Lemma dispatch_list_scorecards self arguments w s :
  dispatch self "list_scorecards" arguments w s =
  list_scorecards self (or_empty arguments) w s.
Proof. reflexivity. Qed.

(** What [search_calls] sends is the query of its Date Window. *)
Lemma search_calls_issued self params w s req :
  In req (sent (snd (search_calls self params w s))) ->
  In req (sent s)
  \/ exists window s1,
       date_window (dict_get params "days_back" (PyInt 7)) w s = (Ok window, s1)
       /\ req = search_calls_request self window.
Proof.
  rewrite search_calls_run.
  pose proof (date_window_sent (dict_get params "days_back" (PyInt 7)) w s)
    as Hs.
  destruct (date_window _ w s) as [[window | e] s1]; cbn [fst snd] in *.
  - rewrite Hs. intros Hin. apply in_app_or in Hin.
    destruct Hin as [Hin | [<- | []]]; [left; exact Hin |].
    right. exists window, s1. split; reflexivity.
  - rewrite Hs. intros Hin. left. exact Hin.
Qed.

(** C3.  Two search invocations whose argument maps agree on
    [days_back] (present with the same value, or absent in both), run
    against the same clock and remote from the same state, are
    indistinguishable: same envelope, same clock reads, same requests.
    Whatever [owner_email], [min_duration] and [keyword] hold, a request
    that is issued is the GET of [/calls] whose query has exactly the
    two keys [fromDateTime] and [toDateTime], and it has no body. *)
Theorem search_depends_on_days_back_only self params1 params2 w s :
  dict_get params1 "days_back" (PyInt 7) =
  dict_get params2 "days_back" (PyInt 7) ->
  handle_call_tool self "search_calls" (Some params1) w s =
  handle_call_tool self "search_calls" (Some params2) w s
  /\ issued (handle_call_tool self "search_calls" (Some params1)) w =
     issued (handle_call_tool self "search_calls" (Some params2)) w
  /\ forall req,
       In req (issued (handle_call_tool self "search_calls" (Some params1)) w) ->
       exists from_date to_date,
         req = gong_request self "GET" "/calls"
                 (Some (PyDict [("fromDateTime", PyStr from_date);
                                ("toDateTime", PyStr to_date)]))
                 None.
Proof.
  intros Hdays.
  assert (forall s0, dispatch self "search_calls" (Some params1) w s0 =
                     dispatch self "search_calls" (Some params2) w s0) as Heq.
  { intros s0. rewrite !dispatch_search_calls, !or_empty_some,
      !search_calls_run, Hdays. reflexivity. }
  split; [| split].
  - rewrite !handle_call_tool_run, Heq. reflexivity.
  - unfold issued. rewrite !handle_call_tool_run, Heq. reflexivity.
  - intros req. unfold issued.
    rewrite handle_call_tool_run, dispatch_search_calls, or_empty_some.
    cbn [snd]. intros Hin.
    apply search_calls_issued in Hin.
    destruct Hin as [[] | (window & s1 & _ & ->)].
    exists (isoformat (fst window) ++ "Z"), (isoformat (snd window) ++ "Z").
    reflexivity.
Qed.

Lemma search_depends_on_days_back_only_witness :
  handle_call_tool example_server "search_calls" (Some example_params1)
    example_search_world initial =
  handle_call_tool example_server "search_calls" (Some example_params2)
    example_search_world initial
  /\ issued (handle_call_tool example_server "search_calls"
               (Some example_params1)) example_search_world =
     issued (handle_call_tool example_server "search_calls"
               (Some example_params2)) example_search_world
  /\ forall req,
       In req (issued (handle_call_tool example_server "search_calls"
                         (Some example_params1)) example_search_world) ->
       exists from_date to_date,
         req = gong_request example_server "GET" "/calls"
                 (Some (PyDict [("fromDateTime", PyStr from_date);
                                ("toDateTime", PyStr to_date)]))
                 None.
Proof.
  apply (search_depends_on_days_back_only example_server
           example_params1 example_params2 example_search_world initial).
  reflexivity.
Defined.

(* ------------------------------------------------------------------ *)
(** ** The Date Window *)
(* ------------------------------------------------------------------ *)

Lemma timedelta_days_int (n : Z) :
  - 999999999 <= n <= 999999999 ->
  timedelta_days (PyInt n) = Ok (n * us_per_day).
Proof.
  intros H. unfold timedelta_days.
  destruct (Z.ltb_spec n (- 2 ^ 31)); [lia |].
  destruct (Z.ltb_spec (2 ^ 31 - 1) n); [lia |].
  destruct (Z.ltb_spec 999999999 (Z.abs n)); [lia |].
  reflexivity.
Qed.


Lemma valid_datetimeb_spec (t : datetime) :
  valid_datetimeb t = true <-> valid_datetime t.
Proof.
  unfold valid_datetimeb, valid_datetime.
  rewrite andb_true_iff, Z.leb_le, Z.ltb_lt. reflexivity.
Qed.








(* ------------------------------------------------------------------ *)
(** ** Loops over the items of a payload *)
(* ------------------------------------------------------------------ *)

Section MapResult.

Context {A B : Type} (f : A -> result B).

Lemma map_result_Forall2 (l : list A) (bs : list B) :
  map_result f l = Ok bs -> Forall2 (fun a b => f a = Ok b) l bs.
Proof.
  revert bs. induction l as [| a l IH]; intros bs; cbn.
  - intros H. injection H as <-. constructor.
  - destruct (f a) as [b |] eqn:Ea; cbn; [| discriminate].
    destruct (map_result f l) as [bs' |]; cbn; [| discriminate].
    intros H. injection H as <-. constructor; [exact Ea | apply IH; reflexivity].
Qed.

Lemma map_result_length (l : list A) (bs : list B) :
  map_result f l = Ok bs -> List.length bs = List.length l.
Proof.
  intros H. apply map_result_Forall2 in H.
  induction H; cbn; congruence.
Qed.

(** The loop completes when its body does on every item. *)
Lemma map_result_total (l : list A) :
  Forall (fun a => exists b, f a = Ok b) l ->
  exists bs, map_result f l = Ok bs.
Proof.
  induction 1 as [| a l [b Hb] _ [bs IH]]; cbn.
  - exists []. reflexivity.
  - rewrite Hb, IH. exists (b :: bs). reflexivity.
Qed.

(** The loop raises when its body does on some item. *)
Lemma map_result_raises (l : list A) (a : A) (e : exn) :
  In a l -> f a = Raise e -> exists e', map_result f l = Raise e'.
Proof.
  intros Hin Ha. induction l as [| x l IH]; [contradiction |].
  cbn. destruct Hin as [-> | Hin].
  - rewrite Ha. exists e. reflexivity.
  - destruct (f x); cbn; [| eexists; reflexivity].
    destruct (IH Hin) as [e' ->]. exists e'. reflexivity.
Qed.

End MapResult.

Lemma length_firstn_min {A} (n : nat) (l : list A) :
  List.length (firstn n l) = Nat.min n (List.length l).
Proof.
  revert l. induction n as [| n IH]; intros [| a l]; cbn; auto.
Qed.

Lemma firstn_min_length {A} (n : nat) (l : list A) :
  firstn (Nat.min n (List.length l)) l = firstn n l.
Proof.
  revert l. induction n as [| n IH]; intros [| a l]; cbn; try reflexivity.
  f_equal. apply IH.
Qed.

(* ------------------------------------------------------------------ *)
(** ** Search results *)
(* ------------------------------------------------------------------ *)

Lemma py_get_dict d k default : py_get (PyDict d) k default = Ok (dict_get d k default).
Proof. reflexivity. Qed.

Lemma participants_total (ps : list value) :
  forallb is_dict ps = true ->
  exists emails,
    map_result (fun p => py_get p "emailAddress" PyNone) ps = Ok emails.
Proof.
  intros H. apply map_result_total. apply Forall_forall.
  intros p Hin. rewrite forallb_forall in H. specialize (H p Hin).
  destruct p; try discriminate. eexists. reflexivity.
Qed.

Lemma format_call_total (call : value) :
  well_shaped_call call = true -> exists entry, format_call call = Ok entry.
Proof.
  destruct call as [| | | | | d]; try discriminate.
  unfold well_shaped_call, dict_contains.
  rewrite !andb_true_iff. intros [[Hid Howner] Hps].
  unfold format_call, py_getitem_str.
  destruct (dict_lookup "id" d) as [id |]; [| discriminate].
  rewrite !py_get_dict. cbn [rbind].
  destruct (dict_get d "owner" (PyDict [])) as [| | | | | o]; try discriminate.
  rewrite py_get_dict. cbn [rbind].
  destruct (dict_get d "participants" (PyList [])) as [| | | | ps |];
    try discriminate.
  cbn [py_iter rbind].
  destruct (participants_total ps Hps) as [emails ->]. cbn [rbind].
  eexists. reflexivity.
Qed.

Lemma format_call_without_id (d : dict) :
  dict_lookup "id" d = None ->
  format_call (PyDict d) = Raise (KeyError (PyStr "id")).
Proof.
  intros H. unfold format_call, py_getitem_str. rewrite H. reflexivity.
Qed.

(** The formatting stage on a payload that lists [cs]. *)
Lemma search_calls_format_listed (payload : dict) (cs : list value) :
  dict_get payload "calls" (PyList []) = PyList cs ->
  search_calls_format (PyDict payload) =
  (calls <- map_result format_call (firstn 10 cs) ;;
   Ok (PyDict [("found", PyInt (Z.of_nat (List.length calls)));
               ("calls", PyList calls)]))%result.
Proof.
  intros H. unfold search_calls_format. rewrite py_get_dict, H. reflexivity.
Qed.

(** The outcome of a search whose request was issued and answered. *)
Lemma search_calls_answered self params w req :
  In req (issued (search_calls self params) w) ->
  outcome (search_calls self params) w =
  rbind (interpret (remote w req)) search_calls_format.
Proof.
  unfold issued, outcome. rewrite search_calls_run.
  pose proof (date_window_sent (dict_get params "days_back" (PyInt 7)) w initial)
    as Hs.
  destruct (date_window _ w initial) as [[window | e] s1]; cbn [fst snd] in *;
    rewrite Hs; cbn; [| contradiction].
  intros [<- | []]. reflexivity.
Qed.

(** A returned search result lists the summaries of the first ten
    calls of the payload, in order. *)
Lemma search_calls_result self params w req status_code text payload cs r :
  In req (issued (search_calls self params) w) ->
  remote w req = Response status_code text (inr (PyDict payload)) ->
  dict_get payload "calls" (PyList []) = PyList cs ->
  outcome (search_calls self params) w = Ok r ->
  exists calls,
    map_result format_call (firstn 10 cs) = Ok calls
    /\ r = PyDict [("found", PyInt (Z.of_nat (List.length calls)));
                   ("calls", PyList calls)].
Proof.
  intros Hin Hremote Hcalls.
  rewrite (search_calls_answered self params w req Hin), Hremote.
  unfold interpret.
  destruct (is_success status_code); [| discriminate].
  cbn [rbind]. rewrite (search_calls_format_listed payload cs Hcalls).
  destruct (map_result format_call (firstn 10 cs)) as [calls |];
    [| discriminate].
  cbn [rbind]. intros H. injection H as <-.
  exists calls. split; reflexivity.
Qed.

(** With a 2xx answer and well-shaped calls the search returns. *)
Lemma search_calls_total self params w req status_code text payload cs :
  In req (issued (search_calls self params) w) ->
  remote w req = Response status_code text (inr (PyDict payload)) ->
  is_success status_code = true ->
  dict_get payload "calls" (PyList []) = PyList cs ->
  forallb well_shaped_call (firstn 10 cs) = true ->
  exists calls,
    outcome (search_calls self params) w =
    Ok (PyDict [("found", PyInt (Z.of_nat (List.length calls)));
                ("calls", PyList calls)]).
Proof.
  intros Hin Hremote Hstatus Hcalls Hshape.
  rewrite (search_calls_answered self params w req Hin), Hremote.
  unfold interpret. rewrite Hstatus. cbn [rbind].
  rewrite (search_calls_format_listed payload cs Hcalls).
  destruct (map_result_total format_call (firstn 10 cs)) as [calls ->].
  - apply Forall_forall. intros call Hc. apply format_call_total.
    rewrite forallb_forall in Hshape. apply Hshape. exact Hc.
  - exists calls. reflexivity.
Qed.

(** C1.  Let the search request be answered with a payload that lists
    [n] calls.  A result that the search operation returns has a [calls]
    list of at most 10 entries, namely of [min 10 n] entries, and they
    are the summaries of the first [min 10 n] calls of the payload, in
    order.  (With a 2xx answer and well-shaped calls a result is
    returned.) *)
Theorem search_calls_lists_first_ten
    self params w req status_code text payload cs :
  In req (issued (search_calls self params) w) ->
  remote w req = Response status_code text (inr (PyDict payload)) ->
  dict_get payload "calls" (PyList []) = PyList cs ->
  (forall r,
     outcome (search_calls self params) w = Ok r ->
     exists calls,
       py_getitem_str r "calls" = Ok (PyList calls)
       /\ (List.length calls <= 10)%nat
       /\ List.length calls = Nat.min 10 (List.length cs)
       /\ Forall2 (fun call entry => format_call call = Ok entry)
            (firstn (Nat.min 10 (List.length cs)) cs) calls)
  /\ (is_success status_code = true ->
      forallb well_shaped_call (firstn 10 cs) = true ->
      exists r, outcome (search_calls self params) w = Ok r).
Proof.
  intros Hin Hremote Hcalls. split.
  - intros r Hr.
    destruct (search_calls_result self params w req status_code text payload
                cs r Hin Hremote Hcalls Hr) as (calls & Hmap & ->).
    exists calls.
    pose proof (map_result_length format_call _ _ Hmap) as Hlen.
    rewrite length_firstn_min in Hlen.
    split; [reflexivity |]. split; [lia |]. split; [exact Hlen |].
    rewrite firstn_min_length. apply map_result_Forall2. exact Hmap.
  - intros Hstatus Hshape.
    destruct (search_calls_total self params w req status_code text payload
                cs Hin Hremote Hstatus Hcalls Hshape) as [calls H].
    eexists. exact H.
Qed.

(** C9.  Under the same conditions the [found] field of a returned
    search result is the length of its [calls] list, that is
    [min 10 n]: never more than 10, and not the remote total when the
    remote lists more than 10 calls. *)
Theorem search_calls_found_counts_listed_calls
    self params w req status_code text payload cs r :
  In req (issued (search_calls self params) w) ->
  remote w req = Response status_code text (inr (PyDict payload)) ->
  dict_get payload "calls" (PyList []) = PyList cs ->
  outcome (search_calls self params) w = Ok r ->
  exists found calls,
    py_getitem_str r "found" = Ok (PyInt found)
    /\ py_getitem_str r "calls" = Ok (PyList calls)
    /\ found = Z.of_nat (List.length calls)
    /\ found = Z.of_nat (Nat.min 10 (List.length cs))
    /\ found <= 10
    /\ ((10 < List.length cs)%nat -> found <> Z.of_nat (List.length cs)).
Proof.
  intros Hin Hremote Hcalls Hr.
  destruct (search_calls_result self params w req status_code text payload
              cs r Hin Hremote Hcalls Hr) as (calls & Hmap & ->).
  pose proof (map_result_length format_call _ _ Hmap) as Hlen.
  rewrite length_firstn_min in Hlen.
  exists (Z.of_nat (List.length calls)), calls.
  repeat split; try reflexivity; lia.
Qed.

Lemma example_search_request_issued :
  In example_search_request
     (issued (search_calls example_server []) twelve_calls_world).
Proof. vm_compute. left. reflexivity. Qed.

Lemma search_calls_lists_first_ten_witness :
  exists r calls,
    outcome (search_calls example_server []) twelve_calls_world = Ok r
    /\ py_getitem_str r "calls" = Ok (PyList calls)
    /\ List.length calls = 10%nat.
Proof.
  destruct (search_calls_lists_first_ten example_server [] twelve_calls_world
              example_search_request 200 ""
              [("calls", PyList twelve_calls)] twelve_calls
              example_search_request_issued eq_refl eq_refl)
    as [Hshape Htotal].
  destruct (Htotal eq_refl eq_refl) as [r Hr].
  destruct (Hshape r Hr) as (calls & Hcalls & _ & Hlen & _).
  exists r, calls. repeat split; assumption.
Defined.

Lemma search_calls_found_witness :
  exists r,
    outcome (search_calls example_server []) twelve_calls_world = Ok r
    /\ py_getitem_str r "found" = Ok (PyInt 10).
Proof.
  assert (exists r,
            outcome (search_calls example_server []) twelve_calls_world = Ok r)
    as [r Hr].
  { eexists. vm_compute. reflexivity. }
  destruct (search_calls_found_counts_listed_calls example_server []
              twelve_calls_world example_search_request 200 ""
              [("calls", PyList twelve_calls)] twelve_calls r
              example_search_request_issued eq_refl eq_refl Hr)
    as (found & calls & Hfound & _ & _ & Hmin & _).
  exists r. split; [exact Hr |]. rewrite Hfound, Hmin. reflexivity.
Defined.

(* ------------------------------------------------------------------ *)
(** ** Search: which payloads are summarized *)
(* ------------------------------------------------------------------ *)

(** The call of that payload has an [id], and yet the search fails on
    it: [.get("owner", {})] yields the null that is there, which has no
    [.get]. *)
Lemma null_owner_breaks_search :
  dict_contains "id" [("id", PyStr "c1"); ("owner", PyNone)] = true
  /\ format_call (PyDict [("id", PyStr "c1"); ("owner", PyNone)]) =
       Raise (AttributeError "'NoneType' object has no attribute 'get'")
  /\ outcome (search_calls example_server []) null_owner_world =
       Raise (AttributeError "'NoneType' object has no attribute 'get'")
  /\ outcome (handle_call_tool example_server "search_calls" None)
       null_owner_world =
       Ok (error_envelope "'NoneType' object has no attribute 'get'").
Proof. repeat split; vm_compute; reflexivity. Qed.

(** C10, amended.  Let the search request be answered 2xx with a payload
    that lists calls.
    - If each of the first 10 calls is an object with an [id], with an
      [owner] that is absent or an object, and with [participants] that
      are absent or a list of objects, the search returns a result, and
      the dispatch layer a result envelope.
    - The fields other than [id] default when absent: a call with only
      an [id] is summarized with title ["Untitled"], no date, duration,
      owner or url, and no participants.
    - If one of the first 10 calls is an object without [id], the
      invocation ends in the error envelope. *)
Theorem search_summarizes_well_shaped_calls
    self params w req status_code text payload cs :
  In req (issued (search_calls self params) w) ->
  remote w req = Response status_code text (inr (PyDict payload)) ->
  is_success status_code = true ->
  dict_get payload "calls" (PyList []) = PyList cs ->
  (forallb well_shaped_call (firstn 10 cs) = true ->
   exists calls,
     outcome (search_calls self params) w =
       Ok (PyDict [("found", PyInt (Z.of_nat (List.length calls)));
                   ("calls", PyList calls)])
     /\ outcome (handle_call_tool self "search_calls" (Some params)) w =
          Ok (result_envelope
                (PyDict [("found", PyInt (Z.of_nat (List.length calls)));
                         ("calls", PyList calls)])))
  /\ (forall id,
        format_call (PyDict [("id", id)]) =
        Ok (PyDict [("id", id);
                    ("title", PyStr "Untitled");
                    ("date", PyNone);
                    ("duration", PyNone);
                    ("owner", PyNone);
                    ("participants", PyList []);
                    ("url", PyNone)]))
  /\ ((exists d, In (PyDict d) (firstn 10 cs) /\ dict_lookup "id" d = None) ->
      exists msg,
        outcome (handle_call_tool self "search_calls" (Some params)) w =
          Ok (error_envelope msg)).
Proof.
  intros Hin Hremote Hstatus Hcalls.
  assert (outcome (handle_call_tool self "search_calls" (Some params)) w =
          Ok (envelope (outcome (search_calls self params) w))) as Henv.
  { unfold outcome.
    rewrite handle_call_tool_run, dispatch_search_calls, or_empty_some.
    reflexivity. }
  split; [| split].
  - intros Hshape.
    destruct (search_calls_total self params w req status_code text payload
                cs Hin Hremote Hstatus Hcalls Hshape) as [calls H].
    exists calls. split; [exact H |]. rewrite Henv, H. reflexivity.
  - intros id. reflexivity.
  - intros (d & Hd & Hid).
    rewrite Henv, (search_calls_answered self params w req Hin), Hremote.
    unfold interpret. rewrite Hstatus. cbn [rbind].
    rewrite (search_calls_format_listed payload cs Hcalls).
    destruct (map_result_raises format_call (firstn 10 cs) (PyDict d)
                (KeyError (PyStr "id")) Hd (format_call_without_id d Hid))
      as [e ->].
    exists (str_exn e). reflexivity.
Qed.

Lemma search_summarizes_well_shaped_calls_witness :
  exists calls,
    outcome (search_calls example_server []) twelve_calls_world =
      Ok (PyDict [("found", PyInt (Z.of_nat (List.length calls)));
                  ("calls", PyList calls)])
    /\ outcome (handle_call_tool example_server "search_calls" (Some []))
         twelve_calls_world =
         Ok (result_envelope
               (PyDict [("found", PyInt (Z.of_nat (List.length calls)));
                        ("calls", PyList calls)])).
Proof.
  destruct (search_summarizes_well_shaped_calls example_server []
              twelve_calls_world example_search_request 200 ""
              [("calls", PyList twelve_calls)] twelve_calls
              example_search_request_issued eq_refl eq_refl eq_refl)
    as [Htotal _].
  apply Htotal. reflexivity.
Defined.

(* ------------------------------------------------------------------ *)
(** ** Transcripts *)
(* ------------------------------------------------------------------ *)

(** The outcome of a transcript lookup is the remote's answer, passed
    through the formatting stage; its one request is always issued. *)
Lemma get_call_transcript_answered self call_id w req :
  In req (issued (get_call_transcript self call_id) w) ->
  outcome (get_call_transcript self call_id) w =
  rbind (interpret (remote w req)) (get_call_transcript_format call_id).
Proof.
  unfold issued, outcome. rewrite get_call_transcript_run. cbn.
  intros [<- | []]. reflexivity.
Qed.

Lemma handle_get_call_transcript self d call_id w :
  dict_lookup "call_id" d = Some call_id ->
  outcome (handle_call_tool self "get_call_transcript" (Some d)) w =
  Ok (envelope (outcome (get_call_transcript self call_id) w)).
Proof.
  intros H. unfold outcome.
  rewrite handle_call_tool_run, (dispatch_get_call_transcript _ _ _ _ _ H).
  reflexivity.
Qed.

(** C2.  When the transcript request is answered 2xx with a payload
    that has no transcript entries ([callTranscripts] absent or the
    empty list), the transcript operation does not raise: it returns
    the object [{"error": "No transcript found for this call"}], and
    the dispatch layer wraps that object as a result. *)
Theorem no_transcript_is_a_soft_error
    self call_id w req status_code text payload :
  In req (issued (get_call_transcript self call_id) w) ->
  remote w req = Response status_code text (inr (PyDict payload)) ->
  is_success status_code = true ->
  dict_get payload "callTranscripts" (PyList []) = PyList [] ->
  outcome (get_call_transcript self call_id) w =
    Ok (PyDict [("error", PyStr "No transcript found for this call")])
  /\ forall d,
       dict_lookup "call_id" d = Some call_id ->
       outcome (handle_call_tool self "get_call_transcript" (Some d)) w =
         Ok (result_envelope
               (PyDict [("error", PyStr "No transcript found for this call")])).
Proof.
  intros Hin Hremote Hstatus Hnone.
  assert (outcome (get_call_transcript self call_id) w =
          Ok (PyDict [("error", PyStr "No transcript found for this call")]))
    as Hout.
  { rewrite (get_call_transcript_answered self call_id w req Hin), Hremote.
    unfold interpret. rewrite Hstatus. cbn [rbind].
    unfold get_call_transcript_format. rewrite py_get_dict, Hnone.
    reflexivity. }
  split; [exact Hout |].
  intros d Hd. rewrite (handle_get_call_transcript self d call_id w Hd), Hout.
  reflexivity.
Qed.

Lemma no_transcript_witness :
  outcome (get_call_transcript example_server (PyStr "X"))
    (example_world (Response 200 "{}" (inr (PyDict [])))) =
    Ok (PyDict [("error", PyStr "No transcript found for this call")])
  /\ forall d,
       dict_lookup "call_id" d = Some (PyStr "X") ->
       outcome (handle_call_tool example_server "get_call_transcript" (Some d))
         (example_world (Response 200 "{}" (inr (PyDict [])))) =
         Ok (result_envelope
               (PyDict [("error", PyStr "No transcript found for this call")])).
Proof.
  apply (no_transcript_is_a_soft_error example_server (PyStr "X")
           (example_world (Response 200 "{}" (inr (PyDict []))))
           example_transcript_request 200 "{}" []).
  - vm_compute. left. reflexivity.
  - reflexivity.
  - reflexivity.
  - reflexivity.
Defined.

Lemma sentences_total (ss : list value) :
  forallb is_dict ss = true ->
  exists conversation, map_result format_sentence ss = Ok conversation.
Proof.
  intros H. apply map_result_total. apply Forall_forall.
  intros s Hin. rewrite forallb_forall in H. specialize (H s Hin).
  destruct s; try discriminate. eexists. reflexivity.
Qed.

(** The formatting stage on a payload whose first transcript entry
    holds the sentences [ss]. *)
Lemma get_call_transcript_format_listed call_id payload first rest ss :
  dict_lookup "callTranscripts" payload = Some (PyList (first :: rest)) ->
  py_get first "sentences" (PyList []) = Ok (PyList ss) ->
  get_call_transcript_format call_id (PyDict payload) =
  (conversation <- map_result format_sentence (firstn 50 ss) ;;
   Ok (PyDict [("call_id", call_id);
               ("conversation", PyList conversation);
               ("total_sentences", PyInt (Z.of_nat (List.length ss)));
               ("showing", PyInt (Z.min 50 (Z.of_nat (List.length ss))))]))%result.
Proof.
  intros Ht Hs. unfold get_call_transcript_format.
  rewrite py_get_dict. unfold dict_get. rewrite Ht.
  cbn [rbind truthy negb py_getitem_0]. rewrite Hs. reflexivity.
Qed.

(** C4.  Let the transcript request be answered with a payload whose
    transcript-entry list is not empty and whose first entry holds
    [n >= 0] sentences.  A result that the transcript operation returns
    has [total_sentences = n], [showing = min 50 n], and a
    [conversation] of exactly [min 50 n] entries, the projections of the
    first [min 50 n] sentences in order.  With a 2xx answer and
    sentences that are objects, a result is returned. *)
Theorem transcript_shows_first_fifty
    self call_id w req status_code text payload first rest ss :
  In req (issued (get_call_transcript self call_id) w) ->
  remote w req = Response status_code text (inr (PyDict payload)) ->
  dict_lookup "callTranscripts" payload = Some (PyList (first :: rest)) ->
  py_get first "sentences" (PyList []) = Ok (PyList ss) ->
  (forall r,
     outcome (get_call_transcript self call_id) w = Ok r ->
     exists conversation,
       r = PyDict [("call_id", call_id);
                   ("conversation", PyList conversation);
                   ("total_sentences", PyInt (Z.of_nat (List.length ss)));
                   ("showing",
                    PyInt (Z.min 50 (Z.of_nat (List.length ss))))]
       /\ Z.of_nat (List.length conversation) =
          Z.min 50 (Z.of_nat (List.length ss))
       /\ Forall2 (fun sentence entry => format_sentence sentence = Ok entry)
            (firstn (Nat.min 50 (List.length ss)) ss) conversation)
  /\ (is_success status_code = true ->
      forallb is_dict (firstn 50 ss) = true ->
      exists r, outcome (get_call_transcript self call_id) w = Ok r).
Proof.
  intros Hin Hremote Ht Hs.
  rewrite (get_call_transcript_answered self call_id w req Hin), Hremote.
  unfold interpret. split.
  - intros r. destruct (is_success status_code); [| discriminate].
    cbn [rbind].
    rewrite (get_call_transcript_format_listed call_id payload first rest ss
               Ht Hs).
    destruct (map_result format_sentence (firstn 50 ss)) as [conversation |]
      eqn:Hmap; [| discriminate].
    cbn [rbind]. intros H. injection H as <-.
    exists conversation.
    pose proof (map_result_length format_sentence _ _ Hmap) as Hlen.
    rewrite length_firstn_min in Hlen.
    split; [reflexivity |]. split; [lia |].
    rewrite firstn_min_length. apply map_result_Forall2. exact Hmap.
  - intros -> Hshape. cbn [rbind].
    rewrite (get_call_transcript_format_listed call_id payload first rest ss
               Ht Hs).
    destruct (sentences_total _ Hshape) as [conversation ->].
    eexists. reflexivity.
Qed.

Lemma transcript_shows_first_fifty_witness :
  exists r,
    outcome (get_call_transcript example_server (PyStr "X"))
      sixty_sentences_world = Ok r
    /\ py_getitem_str r "total_sentences" = Ok (PyInt 60)
    /\ py_getitem_str r "showing" = Ok (PyInt 50).
Proof.
  destruct (transcript_shows_first_fifty example_server (PyStr "X")
              sixty_sentences_world example_transcript_request 200 ""
              sixty_sentences_payload
              (PyDict [("sentences", PyList sixty_sentences)]) []
              sixty_sentences)
    as [Hshape Htotal].
  - vm_compute. left. reflexivity.
  - reflexivity.
  - reflexivity.
  - reflexivity.
  - destruct (Htotal eq_refl eq_refl) as [r Hr].
    destruct (Hshape r Hr) as (conversation & -> & _).
    exists (PyDict
              [("call_id", PyStr "X");
               ("conversation", PyList conversation);
               ("total_sentences", PyInt (Z.of_nat (List.length sixty_sentences)));
               ("showing",
                PyInt (Z.min 50 (Z.of_nat (List.length sixty_sentences))))]).
    split; [exact Hr |]. split; reflexivity.
Defined.

(* ================================================================== *)
(** * Further properties *)
(* ================================================================== *)

(* ------------------------------------------------------------------ *)
(** ** What one invocation does *)
(* ------------------------------------------------------------------ *)

Lemma date_window_ticks days_back w s :
  (S (ticks s) <= ticks (snd (date_window days_back w s)) <= S (S (ticks s)))%nat.
Proof.
  rewrite date_window_run. destruct (rbind _ _); cbn; lia.
Qed.

(** An invocation either raises before anything is sent, or reaches a
    handler, issues that handler's one request, and passes the remote's
    answer through that handler's formatting stage. *)
Lemma dispatch_reaches self name arguments w s :
  (sent (snd (dispatch self name arguments w s)) = sent s
   /\ exists e, fst (dispatch self name arguments w s) = Raise e)
  \/ exists req format,
       reaches self w s name arguments req format
       /\ sent (snd (dispatch self name arguments w s)) = (sent s ++ [req])%list
       /\ fst (dispatch self name arguments w s) =
          rbind (interpret (remote w req)) format.
Proof.
  unfold dispatch.
  destruct (String.eqb_spec name "search_calls") as [-> |].
  { rewrite search_calls_run.
    pose proof (date_window_sent
                  (dict_get (or_empty arguments) "days_back" (PyInt 7)) w s)
      as Hs.
    destruct (date_window _ w s) as [[window | e] s1] eqn:Hw;
      cbn [fst snd] in *.
    - right. exists (search_calls_request self window), search_calls_format.
      rewrite Hs. split; [| split; reflexivity].
      apply (reaches_search_calls self w s arguments window s1 Hw).
    - left. split; [exact Hs | exists e; reflexivity]. }
  destruct (String.eqb_spec name "get_call_transcript") as [-> |].
  { destruct (call_id_missing arguments) eqn:Hm.
    { left. split; [reflexivity | eexists; reflexivity]. }
    destruct (call_id_missing_false _ Hm) as (d & call_id & -> & Hl).
    destruct (call_id_present d call_id Hl) as [_ Hg].
    unfold bind, lift. rewrite Hg, get_call_transcript_run. right.
    exists (get_call_transcript_request self call_id),
      (get_call_transcript_format call_id).
    split; [| split; reflexivity].
    apply reaches_get_call_transcript. exact Hl. }
  destruct (String.eqb_spec name "get_call_stats") as [-> |].
  { destruct (call_id_missing arguments) eqn:Hm.
    { left. split; [reflexivity | eexists; reflexivity]. }
    destruct (call_id_missing_false _ Hm) as (d & call_id & -> & Hl).
    destruct (call_id_present d call_id Hl) as [_ Hg].
    unfold bind, lift. rewrite Hg, get_call_stats_run. right.
    exists (get_call_stats_request self call_id),
      (get_call_stats_format call_id).
    split; [| split; reflexivity].
    apply reaches_get_call_stats. exact Hl. }
  destruct (String.eqb_spec name "list_scorecards") as [-> |].
  { rewrite list_scorecards_run.
    pose proof (date_window_sent
                  (dict_get (or_empty arguments) "days_back" (PyInt 30)) w s)
      as Hs.
    destruct (date_window _ w s) as [[window | e] s1] eqn:Hw;
      cbn [fst snd] in *.
    - right. exists (list_scorecards_request self window),
        (list_scorecards_format
           (dict_get (or_empty arguments) "days_back" (PyInt 30))).
      rewrite Hs. split; [| split; reflexivity].
      apply (reaches_list_scorecards self w s arguments window s1 Hw).
    - left. split; [exact Hs | exists e; reflexivity]. }
  left. split; [reflexivity | eexists; reflexivity].
Qed.

(** The request an invocation issued, and what became of its answer. *)
Lemma issued_reaches self name arguments w req :
  In req (issued (handle_call_tool self name arguments) w) ->
  exists format,
    reaches self w initial name arguments req format
    /\ outcome (handle_call_tool self name arguments) w =
       Ok (envelope (rbind (interpret (remote w req)) format)).
Proof.
  unfold issued, outcome. rewrite handle_call_tool_run. cbn [fst snd].
  destruct (dispatch_reaches self name arguments w initial)
    as [[Hs _] | (req0 & format & Hreach & Hs & Hr)];
    rewrite Hs; cbn; [contradiction |].
  intros [<- | []]. exists format. split; [exact Hreach |].
  rewrite Hr. reflexivity.
Qed.

Lemma dispatch_ticks self name arguments w s :
  (ticks s <= ticks (snd (dispatch self name arguments w s))
   <= S (S (ticks s)))%nat.
Proof.
  unfold dispatch.
  destruct (String.eqb name "search_calls").
  { rewrite search_calls_run.
    pose proof (date_window_ticks
                  (dict_get (or_empty arguments) "days_back" (PyInt 7)) w s).
    destruct (date_window _ w s) as [[window | e] s1]; cbn in *; lia. }
  destruct (String.eqb name "get_call_transcript").
  { destruct (call_id_missing arguments); [cbn; lia |].
    unfold bind, lift. destruct (arguments_getitem _ _); [| cbn; lia].
    rewrite get_call_transcript_run. cbn. lia. }
  destruct (String.eqb name "get_call_stats").
  { destruct (call_id_missing arguments); [cbn; lia |].
    unfold bind, lift. destruct (arguments_getitem _ _); [| cbn; lia].
    rewrite get_call_stats_run. cbn. lia. }
  destruct (String.eqb name "list_scorecards").
  { rewrite list_scorecards_run.
    pose proof (date_window_ticks
                  (dict_get (or_empty arguments) "days_back" (PyInt 30)) w s).
    destruct (date_window _ w s) as [[window | e] s1]; cbn in *; lia. }
  cbn. lia.
Qed.

(** X1.  Whatever the name, the arguments, the clock and the remote,
    [handle_call_tool] does not raise: it returns exactly one content
    block, of type ["text"].  On the way it has handed at most one
    request to the executor and read the clock at most twice. *)
Theorem one_text_block_at_most_one_request self name arguments w s :
  exists body s',
    handle_call_tool self name arguments w s =
      (Ok [Build_TextContent "text" body], s')
    /\ (sent s' = sent s \/ exists req, sent s' = (sent s ++ [req])%list)
    /\ (ticks s <= ticks s' <= ticks s + 2)%nat.
Proof.
  rewrite handle_call_tool_run.
  exists (match fst (dispatch self name arguments w s) with
          | Ok v => json_dumps v
          | Raise e => json_dumps (PyDict [("error", PyStr (str_exn e))])
          end), (snd (dispatch self name arguments w s)).
  split; [| split].
  - destruct (fst (dispatch self name arguments w s)); reflexivity.
  - destruct (dispatch_reaches self name arguments w s)
      as [[Hs _] | (req & format & _ & Hs & _)].
    + left. exact Hs.
    + right. exists req. exact Hs.
  - pose proof (dispatch_ticks self name arguments w s). lia.
Qed.

(** X2.  The check on [call_id] is a check of presence only: whatever
    value the key holds, even null, the transcript operation issues its
    POST with that value as the one element of [callIds], and the stats
    operation issues its GET for the path [/calls/] followed by the
    [str] of the value, unescaped. *)
Theorem call_id_is_passed_on_verbatim self d call_id w :
  dict_lookup "call_id" d = Some call_id ->
  issued (handle_call_tool self "get_call_transcript" (Some d)) w =
    [Request "POST" (base_url self ++ "/calls/transcript") (gong_headers self)
       None
       (Some (PyDict [("filter", PyDict [("callIds", PyList [call_id])])]))]
  /\ issued (handle_call_tool self "get_call_stats" (Some d)) w =
    [Request "GET" (base_url self ++ "/calls/" ++ str call_id)
       (gong_headers self) None None].
Proof.
  intros H. unfold issued.
  rewrite !handle_call_tool_run. cbn [snd].
  rewrite (dispatch_get_call_transcript self d call_id w initial H),
    (dispatch_get_call_stats self d call_id w initial H),
    get_call_transcript_run, get_call_stats_run.
  split; reflexivity.
Qed.

Lemma call_id_is_passed_on_verbatim_witness :
  issued (handle_call_tool example_server "get_call_transcript"
            (Some [("call_id", PyNone)])) offline_world =
    [Request "POST" "https://api.gong.io/v2/calls/transcript"
       (gong_headers example_server) None
       (Some (PyDict [("filter", PyDict [("callIds", PyList [PyNone])])]))]
  /\ issued (handle_call_tool example_server "get_call_stats"
               (Some [("call_id", PyNone)])) offline_world =
    [Request "GET" "https://api.gong.io/v2/calls/None"
       (gong_headers example_server) None None].
Proof.
  apply (call_id_is_passed_on_verbatim example_server
           [("call_id", PyNone)] PyNone offline_world).
  reflexivity.
Defined.

(* ------------------------------------------------------------------ *)
(** ** The request executor seen through the dispatch layer *)
(* ------------------------------------------------------------------ *)

(** X3.  When the request an invocation issued fails below HTTP, or is
    answered 2xx with a body that is not JSON, the invocation ends with
    the error envelope ["Request failed: <message>"], whatever the
    operation. *)
Theorem failed_request_surfaces_as_request_failed
    self name arguments w req msg :
  In req (issued (handle_call_tool self name arguments) w) ->
  remote w req = TransportFailure msg
  \/ (exists status_code text,
        remote w req = Response status_code text (inl msg)
        /\ is_success status_code = true) ->
  outcome (handle_call_tool self name arguments) w =
    Ok (error_envelope ("Request failed: " ++ msg)).
Proof.
  intros Hin Hremote.
  destruct (issued_reaches self name arguments w req Hin)
    as (format & _ & ->).
  destruct Hremote as [-> | (status_code & text & -> & Hstatus)].
  - reflexivity.
  - unfold interpret. rewrite Hstatus. reflexivity.
Qed.

Lemma failed_request_witness :
  outcome (handle_call_tool example_server "list_scorecards" None)
    offline_world =
    Ok (error_envelope "Request failed: All connection attempts failed").
Proof.
  apply (failed_request_surfaces_as_request_failed example_server
           "list_scorecards" None offline_world
           (list_scorecards_request example_server
              (example_clock 0 - 30 * us_per_day, example_clock 1))).
  - vm_compute. left. reflexivity.
  - left. reflexivity.
Defined.

(** X4.  Every request an invocation issues carries the two headers
    [Content-Type: application/json] and [Authorization: Basic
    base64(key:secret)], and follows the table of the four endpoints:
    the search is a GET of [/calls] with the two dates as query and no
    body; the transcript lookup a POST to [/calls/transcript] with the
    call id filter as body and no query; the stats lookup a GET of
    [/calls/<id>] with neither; the scorecard listing a POST to
    [/stats/scorecards] with the two dates as filter body and no
    query. *)
Theorem requests_follow_the_endpoint_table self name arguments w req :
  In req (issued (handle_call_tool self name arguments) w) ->
  req_headers req = gong_headers self
  /\ ((name = "search_calls"
       /\ req_method req = "GET"
       /\ req_url req = base_url self ++ "/calls"
       /\ req_json req = None
       /\ exists from_date to_date,
            req_params req =
            Some (PyDict [("fromDateTime", PyStr from_date);
                          ("toDateTime", PyStr to_date)]))
      \/ (name = "get_call_transcript"
          /\ req_method req = "POST"
          /\ req_url req = base_url self ++ "/calls/transcript"
          /\ req_params req = None
          /\ exists call_id,
               req_json req =
               Some (PyDict [("filter",
                              PyDict [("callIds", PyList [call_id])])]))
      \/ (name = "get_call_stats"
          /\ req_method req = "GET"
          /\ (exists call_id,
                req_url req = base_url self ++ "/calls/" ++ str call_id)
          /\ req_params req = None
          /\ req_json req = None)
      \/ (name = "list_scorecards"
          /\ req_method req = "POST"
          /\ req_url req = base_url self ++ "/stats/scorecards"
          /\ req_params req = None
          /\ exists from_date to_date,
               req_json req =
               Some (PyDict [("filter",
                              PyDict [("fromDateTime", PyStr from_date);
                                      ("toDateTime", PyStr to_date)])]))).
Proof.
  intros Hin.
  destruct (issued_reaches self name arguments w req Hin)
    as (format & Hreach & _).
  destruct Hreach as [arguments window s1 _ | d call_id _ | d call_id _
                      | arguments window s1 _];
    (split; [reflexivity |]).
  - left. repeat split; try reflexivity. eexists. eexists. reflexivity.
  - right. left. repeat split; try reflexivity. eexists. reflexivity.
  - right. right. left. repeat split; try reflexivity.
    eexists. reflexivity.
  - right. right. right. repeat split; try reflexivity.
    eexists. eexists. reflexivity.
Qed.

Lemma requests_follow_the_endpoint_table_witness :
  req_headers example_search_request = gong_headers example_server
  /\ req_method example_search_request = "GET"
  /\ req_url example_search_request = "https://api.gong.io/v2/calls".
Proof.
  destruct (requests_follow_the_endpoint_table example_server "search_calls"
              None twelve_calls_world example_search_request)
    as [Hheaders _].
  - vm_compute. left. reflexivity.
  - split; [exact Hheaders | split; reflexivity].
Defined.

(** X5.  The body of a 2xx answer is not validated: when it is JSON but
    not an object (a list, a string, a number, null), each of the four
    operations fails on its first [.get], and the invocation ends with
    the error envelope ['<type>' object has no attribute 'get']. *)
Theorem non_object_body_is_an_attribute_error
    self name arguments w req status_code text body :
  In req (issued (handle_call_tool self name arguments) w) ->
  remote w req = Response status_code text (inr body) ->
  is_success status_code = true ->
  is_dict body = false ->
  outcome (handle_call_tool self name arguments) w =
    Ok (error_envelope
          ("'" ++ type_name body ++ "' object has no attribute 'get'")).
Proof.
  intros Hin Hremote Hstatus Hbody.
  destruct (issued_reaches self name arguments w req Hin)
    as (format & Hreach & ->).
  rewrite Hremote. unfold interpret. rewrite Hstatus. cbn [rbind].
  destruct Hreach; destruct body; try discriminate; reflexivity.
Qed.

Lemma non_object_body_witness :
  outcome (handle_call_tool example_server "get_call_stats"
             (Some [("call_id", PyStr "X")]))
    (example_world (Response 200 "[]" (inr (PyList [])))) =
    Ok (error_envelope "'list' object has no attribute 'get'").
Proof.
  apply (non_object_body_is_an_attribute_error example_server
           "get_call_stats" (Some [("call_id", PyStr "X")])
           (example_world (Response 200 "[]" (inr (PyList []))))
           (get_call_stats_request example_server (PyStr "X"))
           200 "[]" (PyList [])).
  - vm_compute. left. reflexivity.
  - reflexivity.
  - reflexivity.
  - reflexivity.
Defined.

(* ------------------------------------------------------------------ *)
(** ** [days_back] is not validated *)
(* ------------------------------------------------------------------ *)

Lemma timedelta_days_rejects (v : value) :
  not_a_day_count v = true ->
  timedelta_days v =
  Raise (TypeError
           ("unsupported type for timedelta days component: " ++ type_name v)).
Proof. destruct v; try discriminate; reflexivity. Qed.

(** X6.  A [days_back] that is present but is neither an [int] nor a
    [bool] (a string, null, a list, an object) does not fall back to the
    default: the search and the scorecard operation end with the error
    envelope of [timedelta]'s [TypeError], after one clock reading and
    before any request. *)
Theorem ill_typed_days_back_is_rejected_before_any_request
    self name params v w s :
  name = "search_calls" \/ name = "list_scorecards" ->
  dict_lookup "days_back" params = Some v ->
  not_a_day_count v = true ->
  handle_call_tool self name (Some params) w s =
    (Ok (error_envelope
           ("unsupported type for timedelta days component: "
            ++ type_name v)),
     State (S (ticks s)) (sent s)).
Proof.
  intros Hname Hv Htype.
  rewrite handle_call_tool_run.
  assert (forall default, dict_get params "days_back" default = v) as Hget.
  { intros default. unfold dict_get. rewrite Hv. reflexivity. }
  destruct Hname as [-> | ->].
  - rewrite dispatch_search_calls, or_empty_some, search_calls_run,
      date_window_run, Hget, (timedelta_days_rejects v Htype).
    reflexivity.
  - rewrite dispatch_list_scorecards, or_empty_some, list_scorecards_run,
      date_window_run, Hget, (timedelta_days_rejects v Htype).
    reflexivity.
Qed.

Lemma ill_typed_days_back_witness :
  handle_call_tool example_server "search_calls"
    (Some [("days_back", PyNone)]) offline_world initial =
    (Ok (error_envelope
           "unsupported type for timedelta days component: NoneType"),
     State 1 []).
Proof.
  apply (ill_typed_days_back_is_rejected_before_any_request example_server
           "search_calls" [("days_back", PyNone)] PyNone offline_world
           initial).
  - left. reflexivity.
  - reflexivity.
  - reflexivity.
Defined.

(** X7.  A negative [days_back] is accepted.  As long as the clock does
    not leap ahead by more than [-days_back] days between its two
    readings, the search and the scorecard operation then send a window
    that starts after it ends. *)
Theorem negative_days_back_sends_an_inverted_window
    self params (days_back : Z) w :
  days_back < 0 ->
  dict_lookup "days_back" params = Some (PyInt days_back) ->
  valid_datetime (clock w 0) ->
  valid_datetime (clock w 0 - days_back * us_per_day) ->
  clock w 1 < clock w 0 - days_back * us_per_day ->
  exists from_dt to_dt,
    to_dt < from_dt
    /\ issued (search_calls self params) w =
         [search_calls_request self (from_dt, to_dt)]
    /\ issued (list_scorecards self params) w =
         [list_scorecards_request self (from_dt, to_dt)].
Proof.
  intros Hneg Hd Hnow Hfrom Hlt.
  exists (clock w 0 - days_back * us_per_day), (clock w 1).
  assert (forall default,
            date_window (dict_get params "days_back" default) w initial =
            (Ok (clock w 0 - days_back * us_per_day, clock w 1),
             State 2 [])) as Hwin.
  { intros default. unfold dict_get. rewrite Hd, date_window_run.
    rewrite timedelta_days_int.
    - cbn [rbind initial ticks sent]. unfold datetime_sub.
      apply valid_datetimeb_spec in Hfrom. rewrite Hfrom. reflexivity.
    - unfold valid_datetime, us_per_day, max_ordinal in *. lia. }
  split; [exact Hlt |]. unfold issued.
  rewrite search_calls_run, list_scorecards_run, !Hwin.
  split; reflexivity.
Qed.

Lemma negative_days_back_witness :
  exists from_dt to_dt,
    to_dt < from_dt
    /\ issued (search_calls example_server [("days_back", PyInt (-1))])
         offline_world =
         [search_calls_request example_server (from_dt, to_dt)]
    /\ issued (list_scorecards example_server [("days_back", PyInt (-1))])
         offline_world =
         [list_scorecards_request example_server (from_dt, to_dt)].
Proof.
  apply (negative_days_back_sends_an_inverted_window example_server
           [("days_back", PyInt (-1))] (-1) offline_world).
  - lia.
  - reflexivity.
  - vm_compute. split; [discriminate | reflexivity].
  - vm_compute. split; [discriminate | reflexivity].
  - vm_compute. reflexivity.
Defined.

(* ------------------------------------------------------------------ *)
(** ** Search: the loop over the listed calls *)
(* ------------------------------------------------------------------ *)

Lemma participants_succeed_iff (ps : list value) :
  (exists emails,
     map_result (fun p => py_get p "emailAddress" PyNone) ps = Ok emails)
  <-> forallb is_dict ps = true.
Proof.
  split; [| apply participants_total].
  induction ps as [| p ps IH]; [reflexivity |].
  cbn. intros [emails H].
  destruct p; try discriminate. cbn in H |- *.
  destruct (map_result _ ps) as [es |]; [| discriminate].
  apply IH. exists es. reflexivity.
Qed.

(** X8.  The loop body of [search_calls] succeeds on a call exactly when
    the call is an object with an [id], its [owner] is absent or an
    object, and its [participants] are absent, a list of objects, an
    empty string or an empty object.  Any other call (no [id], a null
    [owner], null [participants], a participant that is not an object)
    makes it raise. *)
Theorem format_call_succeeds_iff_summarizable (call : value) :
  (exists entry, format_call call = Ok entry) <-> summarizable call = true.
Proof.
  destruct call as [| | | | | d];
    try (split; [intros [entry H]; discriminate | discriminate]).
  unfold summarizable, format_call, py_getitem_str, dict_contains.
  destruct (dict_lookup "id" d) as [id |];
    [| split; [intros [entry H]; discriminate | discriminate]].
  rewrite !py_get_dict. cbn [rbind andb].
  destruct (dict_get d "owner" (PyDict [])) as [| | | | | o];
    try (split; [intros [entry H]; discriminate | discriminate]).
  rewrite py_get_dict. cbn [rbind is_dict andb].
  destruct (dict_get d "participants" (PyList [])) as [| | | text | ps | keys];
    try (split; [intros [entry H]; discriminate | discriminate]).
  - destruct text as [| c text]; cbn;
      split; try discriminate; try reflexivity;
      [eexists; reflexivity | intros [entry H]; discriminate].
  - cbn [py_iter rbind]. rewrite <- participants_succeed_iff.
    split.
    + intros [entry H].
      destruct (map_result _ ps) as [emails |]; [| discriminate].
      exists emails. reflexivity.
    + intros [emails ->]. eexists. reflexivity.
  - destruct keys as [| [k v] keys]; cbn;
      split; try discriminate; try reflexivity;
      [eexists; reflexivity | intros [entry H]; discriminate].
Qed.

Lemma format_call_summarizable (call : value) :
  summarizable call = true -> exists entry, format_call call = Ok entry.
Proof.
  destruct call as [| | | | | d]; try discriminate.
  unfold summarizable, format_call, py_getitem_str, dict_contains.
  rewrite !andb_true_iff. intros [[Hid Howner] Hps].
  destruct (dict_lookup "id" d) as [id |]; [| discriminate].
  rewrite !py_get_dict. cbn [rbind].
  destruct (dict_get d "owner" (PyDict [])) as [| | | | | o]; try discriminate.
  rewrite py_get_dict. cbn [rbind].
  destruct (dict_get d "participants" (PyList [])) as [| | | text | ps | keys];
    try discriminate.
  - destruct text; [| discriminate]. eexists. reflexivity.
  - cbn [py_iter rbind].
    destruct (participants_total ps Hps) as [emails ->].
    eexists. reflexivity.
  - destruct keys; [| discriminate]. eexists. reflexivity.
Qed.

(** The loop stops at the first item its body raises on, with that
    exception. *)
Lemma map_result_first_failure {A B} (f : A -> result B)
    (good : list A) (bad : A) (rest : list A) (e : exn) :
  Forall (fun a => exists b, f a = Ok b) good ->
  f bad = Raise e ->
  map_result f (good ++ bad :: rest) = Raise e.
Proof.
  intros Hgood Hbad.
  induction Hgood as [| a good [b Hb] _ IH]; cbn.
  - rewrite Hbad. reflexivity.
  - rewrite Hb, IH. reflexivity.
Qed.

Lemma firstn_app_cons {A} (n : nat) (good : list A) (bad : A) (rest : list A) :
  (List.length good < n)%nat ->
  firstn n (good ++ bad :: rest) =
  (good ++ bad :: firstn (n - S (List.length good)) rest)%list.
Proof.
  revert n. induction good as [| a good IH]; intros [| n] Hlen; cbn in *;
    try lia.
  - rewrite Nat.sub_0_r. reflexivity.
  - f_equal. apply IH. lia.
Qed.

(** X9.  The search fails with the exception of the first call it
    cannot summarize.  When that call, among the first 10, is an object
    without [id], the invocation ends with the error envelope whose
    whole message is the quoted key, ['id']. *)
Theorem first_call_without_id_gives_quoted_key_message
    self params w req status_code text payload good d rest :
  In req (issued (search_calls self params) w) ->
  remote w req = Response status_code text (inr (PyDict payload)) ->
  is_success status_code = true ->
  dict_get payload "calls" (PyList []) = PyList (good ++ PyDict d :: rest) ->
  (List.length good < 10)%nat ->
  forallb summarizable good = true ->
  dict_lookup "id" d = None ->
  outcome (search_calls self params) w = Raise (KeyError (PyStr "id"))
  /\ outcome (handle_call_tool self "search_calls" (Some params)) w =
       Ok (error_envelope "'id'").
Proof.
  intros Hin Hremote Hstatus Hcalls Hlen Hgood Hid.
  assert (outcome (search_calls self params) w = Raise (KeyError (PyStr "id")))
    as Hout.
  { rewrite (search_calls_answered self params w req Hin), Hremote.
    unfold interpret. rewrite Hstatus. cbn [rbind].
    rewrite (search_calls_format_listed payload _ Hcalls).
    rewrite (firstn_app_cons 10 good (PyDict d) rest Hlen).
    rewrite (map_result_first_failure format_call good (PyDict d) _
               (KeyError (PyStr "id"))).
    - reflexivity.
    - apply Forall_forall. intros call Hc. apply format_call_summarizable.
      rewrite forallb_forall in Hgood. apply Hgood. exact Hc.
    - apply format_call_without_id. exact Hid. }
  split; [exact Hout |].
  unfold outcome in *.
  rewrite handle_call_tool_run, dispatch_search_calls, or_empty_some.
  cbn [fst]. rewrite Hout. reflexivity.
Qed.

Lemma first_call_without_id_witness :
  outcome (search_calls example_server [])
    (example_world
       (Response 200 ""
          (inr (PyDict [("calls",
                         PyList [PyDict [("id", PyStr "1")];
                                 PyDict [("title", PyStr "No id")];
                                 PyNone])])))) =
    Raise (KeyError (PyStr "id"))
  /\ outcome (handle_call_tool example_server "search_calls" (Some []))
       (example_world
          (Response 200 ""
             (inr (PyDict [("calls",
                            PyList [PyDict [("id", PyStr "1")];
                                    PyDict [("title", PyStr "No id")];
                                    PyNone])])))) =
       Ok (error_envelope "'id'").
Proof.
  apply (first_call_without_id_gives_quoted_key_message example_server []
           _ example_search_request 200 ""
           [("calls",
             PyList [PyDict [("id", PyStr "1")];
                     PyDict [("title", PyStr "No id")];
                     PyNone])]
           [PyDict [("id", PyStr "1")]] [("title", PyStr "No id")] [PyNone]).
  - vm_compute. left. reflexivity.
  - reflexivity.
  - reflexivity.
  - reflexivity.
  - cbn. lia.
  - reflexivity.
  - reflexivity.
Defined.

Lemma search_calls_issued_by_clock self params clock0 remote1 remote2 :
  issued (search_calls self params) (World clock0 remote1) =
  issued (search_calls self params) (World clock0 remote2).
Proof.
  unfold issued. rewrite !search_calls_run, !date_window_run. cbn [clock].
  destruct (rbind _ _); reflexivity.
Qed.

(** X10.  The search never looks past the tenth listed call: against the
    same clock, two 2xx payloads whose first 10 calls coincide give the
    same outcome, whatever follows them (further calls, or entries that
    are not even objects). *)
Theorem search_ignores_calls_after_the_tenth
    self params clock0 remote1 remote2 req
    status1 text1 payload1 cs1 status2 text2 payload2 cs2 :
  In req (issued (search_calls self params) (World clock0 remote1)) ->
  remote1 req = Response status1 text1 (inr (PyDict payload1)) ->
  remote2 req = Response status2 text2 (inr (PyDict payload2)) ->
  is_success status1 = true ->
  is_success status2 = true ->
  dict_get payload1 "calls" (PyList []) = PyList cs1 ->
  dict_get payload2 "calls" (PyList []) = PyList cs2 ->
  firstn 10 cs1 = firstn 10 cs2 ->
  outcome (search_calls self params) (World clock0 remote1) =
  outcome (search_calls self params) (World clock0 remote2).
Proof.
  intros Hin H1 H2 Hs1 Hs2 Hc1 Hc2 Hfirst.
  assert (In req (issued (search_calls self params) (World clock0 remote2)))
    as Hin2.
  { rewrite (search_calls_issued_by_clock self params clock0 remote2 remote1).
    exact Hin. }
  rewrite (search_calls_answered self params _ req Hin),
    (search_calls_answered self params _ req Hin2).
  cbn [remote]. rewrite H1, H2. unfold interpret. rewrite Hs1, Hs2.
  cbn [rbind].
  rewrite (search_calls_format_listed payload1 cs1 Hc1),
    (search_calls_format_listed payload2 cs2 Hc2), Hfirst.
  reflexivity.
Qed.

Lemma search_ignores_calls_after_the_tenth_witness :
  outcome (search_calls example_server [])
    (World example_clock
       (fun _ => Response 200 ""
                   (inr (PyDict [("calls", PyList twelve_calls)])))) =
  outcome (search_calls example_server [])
    (World example_clock
       (fun _ => Response 200 ""
                   (inr (PyDict [("calls",
                                  PyList (firstn 10 twelve_calls
                                          ++ [PyNone; PyInt 3]))])))).
Proof.
  apply (search_ignores_calls_after_the_tenth example_server []
           example_clock _ _ example_search_request
           200 "" [("calls", PyList twelve_calls)] twelve_calls
           200 "" [("calls", PyList (firstn 10 twelve_calls
                                     ++ [PyNone; PyInt 3]))]
           (firstn 10 twelve_calls ++ [PyNone; PyInt 3])%list).
  - vm_compute. left. reflexivity.
  - reflexivity.
  - reflexivity.
  - reflexivity.
  - reflexivity.
  - reflexivity.
  - reflexivity.
  - reflexivity.
Defined.

(* ------------------------------------------------------------------ *)
(** ** Call statistics and scorecards *)
(* ------------------------------------------------------------------ *)

Lemma get_call_stats_answered self call_id w req :
  In req (issued (get_call_stats self call_id) w) ->
  outcome (get_call_stats self call_id) w =
  rbind (interpret (remote w req)) (get_call_stats_format call_id).
Proof.
  unfold issued, outcome. rewrite get_call_stats_run. cbn.
  intros [<- | []]. reflexivity.
Qed.

Lemma list_scorecards_answered self params w req :
  In req (issued (list_scorecards self params) w) ->
  outcome (list_scorecards self params) w =
  rbind (interpret (remote w req))
        (list_scorecards_format (dict_get params "days_back" (PyInt 30))).
Proof.
  unfold issued, outcome. rewrite list_scorecards_run.
  pose proof (date_window_sent (dict_get params "days_back" (PyInt 30)) w
                initial) as Hs.
  destruct (date_window _ w initial) as [[window | e] s1]; cbn [fst snd] in *;
    rewrite Hs; cbn; [| contradiction].
  intros [<- | []]. reflexivity.
Qed.

(** X11.  On a 2xx object payload whose [call] is absent or an object,
    and whose [call.stats] is absent or an object, the stats operation
    returns its eight fields in a fixed order: the call id as given,
    and each of the other seven as found in the payload, null when the
    payload does not have it.  Nothing is computed locally. *)
Theorem get_call_stats_copies_fields_or_null
    self call_id w req status_code text payload call stats :
  In req (issued (get_call_stats self call_id) w) ->
  remote w req = Response status_code text (inr (PyDict payload)) ->
  is_success status_code = true ->
  dict_get payload "call" (PyDict []) = PyDict call ->
  dict_get call "stats" (PyDict []) = PyDict stats ->
  outcome (get_call_stats self call_id) w =
    Ok (PyDict
          [("call_id", call_id);
           ("title", dict_get call "title" PyNone);
           ("duration_seconds", dict_get call "duration" PyNone);
           ("talk_ratio", dict_get stats "talkRatio" PyNone);
           ("longest_monologue", dict_get stats "longestMonologue" PyNone);
           ("questions_asked", dict_get stats "questionsAsked" PyNone);
           ("engagement_score", dict_get stats "engagementScore" PyNone);
           ("sentiment", dict_get call "sentiment" PyNone)]).
Proof.
  intros Hin Hremote Hstatus Hcall Hstats.
  rewrite (get_call_stats_answered self call_id w req Hin), Hremote.
  unfold interpret. rewrite Hstatus. cbn [rbind].
  unfold get_call_stats_format.
  rewrite py_get_dict, Hcall. cbn [rbind].
  rewrite py_get_dict, Hstats. reflexivity.
Qed.

Lemma get_call_stats_witness :
  outcome (get_call_stats example_server (PyStr "X"))
    (example_world
       (Response 200 ""
          (inr (PyDict [("call", PyDict [("title", PyStr "Demo")])])))) =
    Ok (PyDict
          [("call_id", PyStr "X");
           ("title", PyStr "Demo");
           ("duration_seconds", PyNone);
           ("talk_ratio", PyNone);
           ("longest_monologue", PyNone);
           ("questions_asked", PyNone);
           ("engagement_score", PyNone);
           ("sentiment", PyNone)]).
Proof.
  apply (get_call_stats_copies_fields_or_null example_server (PyStr "X") _
           (get_call_stats_request example_server (PyStr "X")) 200 ""
           [("call", PyDict [("title", PyStr "Demo")])]
           [("title", PyStr "Demo")] []).
  - vm_compute. left. reflexivity.
  - reflexivity.
  - reflexivity.
  - reflexivity.
  - reflexivity.
Defined.

(** X12.  On a 2xx object payload the scorecard operation returns the
    payload's [scorecards] value as it is (whatever its type and its
    length; an empty list when the key is absent), beside the label
    ["Last <days_back> days"], where [days_back] is shown by [str]. *)
Theorem list_scorecards_passes_scorecards_through
    self params w req status_code text payload :
  In req (issued (list_scorecards self params) w) ->
  remote w req = Response status_code text (inr (PyDict payload)) ->
  is_success status_code = true ->
  outcome (list_scorecards self params) w =
    Ok (PyDict
          [("period",
            PyStr ("Last " ++ str (dict_get params "days_back" (PyInt 30))
                   ++ " days"));
           ("scorecards", dict_get payload "scorecards" (PyList []))]).
Proof.
  intros Hin Hremote Hstatus.
  rewrite (list_scorecards_answered self params w req Hin), Hremote.
  unfold interpret. rewrite Hstatus. reflexivity.
Qed.

Lemma list_scorecards_witness :
  outcome (list_scorecards example_server [("days_back", PyBool true)])
    (example_world
       (Response 200 "" (inr (PyDict [("scorecards", PyStr "n/a")])))) =
    Ok (PyDict [("period", PyStr "Last True days");
                ("scorecards", PyStr "n/a")]).
Proof.
  apply (list_scorecards_passes_scorecards_through example_server
           [("days_back", PyBool true)] _
           (list_scorecards_request example_server
              (example_clock 0 - 1 * us_per_day, example_clock 1))
           200 "" [("scorecards", PyStr "n/a")]).
  - vm_compute. left. reflexivity.
  - reflexivity.
  - reflexivity.
Defined.

(** X13.  The scorecard operation reads [days_back] and nothing else of
    its arguments: two invocations that agree on it, from the same
    state against the same clock and remote, are indistinguishable. *)
Theorem scorecards_depend_on_days_back_only self params1 params2 w s :
  dict_get params1 "days_back" (PyInt 30) =
  dict_get params2 "days_back" (PyInt 30) ->
  handle_call_tool self "list_scorecards" (Some params1) w s =
  handle_call_tool self "list_scorecards" (Some params2) w s.
Proof.
  intros Hdays.
  rewrite !handle_call_tool_run, !dispatch_list_scorecards, !or_empty_some,
    !list_scorecards_run, Hdays.
  reflexivity.
Qed.

Lemma scorecards_depend_on_days_back_only_witness :
  handle_call_tool example_server "list_scorecards"
    (Some [("owner_email", PyStr "a@b.c")]) offline_world initial =
  handle_call_tool example_server "list_scorecards"
    (Some [("days_back", PyInt 30); ("call_id", PyStr "X")])
    offline_world initial.
Proof.
  apply (scorecards_depend_on_days_back_only example_server
           [("owner_email", PyStr "a@b.c")]
           [("days_back", PyInt 30); ("call_id", PyStr "X")]).
  reflexivity.
Defined.

(* ------------------------------------------------------------------ *)
(** ** The advertised tools and the dispatch layer *)
(* ------------------------------------------------------------------ *)

Lemma handle_unknown_name self name arguments w s :
  ~ In name advertised ->
  handle_call_tool self name arguments w s =
    (Ok (error_envelope ("Unknown tool: " ++ name)), s).
Proof.
  intros Hnot. rewrite handle_call_tool_run. unfold dispatch.
  destruct (String.eqb_spec name "search_calls") as [-> | _];
    [exfalso; apply Hnot; cbn; tauto |].
  destruct (String.eqb_spec name "get_call_transcript") as [-> | _];
    [exfalso; apply Hnot; cbn; tauto |].
  destruct (String.eqb_spec name "get_call_stats") as [-> | _];
    [exfalso; apply Hnot; cbn; tauto |].
  destruct (String.eqb_spec name "list_scorecards") as [-> | _];
    [exfalso; apply Hnot; cbn; tauto |].
  reflexivity.
Qed.

(** A dispatched search or scorecard listing reads the clock. *)
Lemma windowed_operation_reads_clock self name w :
  name = "search_calls" \/ name = "list_scorecards" ->
  ticks (snd (handle_call_tool self name None w initial)) <> O.
Proof.
  intros [-> | ->]; rewrite handle_call_tool_run; cbn [snd].
  - rewrite dispatch_search_calls, search_calls_run.
    pose proof (date_window_ticks
                  (dict_get (or_empty None) "days_back" (PyInt 7)) w initial).
    destruct (date_window _ w initial) as [[window | e] s1]; cbn in *; lia.
  - rewrite dispatch_list_scorecards, list_scorecards_run.
    pose proof (date_window_ticks
                  (dict_get (or_empty None) "days_back" (PyInt 30)) w initial).
    destruct (date_window _ w initial) as [[window | e] s1]; cbn in *; lia.
Qed.

(** X14.  The names [handle_list_tools] advertises are exactly the names
    [handle_call_tool] dispatches: a name is answered with
    ["Unknown tool: <name>"], in an untouched state, for all arguments,
    clocks and remotes, if and only if it is not advertised. *)
Theorem advertised_names_are_the_dispatched_names self name :
  ~ In name advertised
  <-> forall arguments w s,
        handle_call_tool self name arguments w s =
          (Ok (error_envelope ("Unknown tool: " ++ name)), s).
Proof.
  split.
  - intros Hnot arguments w s. apply handle_unknown_name. exact Hnot.
  - intros Hall Hin. specialize (Hall None offline_world initial).
    cbn in Hin.
    destruct Hin as [<- | [<- | [<- | [<- | []]]]].
    + apply (windowed_operation_reads_clock self "search_calls" offline_world);
        [left; reflexivity |].
      rewrite Hall. reflexivity.
    + vm_compute in Hall. discriminate.
    + vm_compute in Hall. discriminate.
    + apply (windowed_operation_reads_clock self "list_scorecards"
               offline_world); [right; reflexivity |].
      rewrite Hall. reflexivity.
Qed.

(** X15.  The input schemas and the dispatch layer agree on what is
    required: an advertised tool lists [call_id] under [required] if
    and only if invoking it without arguments is answered with
    ["call_id is required for <name>"] in an untouched state. *)
Theorem required_call_id_is_what_dispatch_validates self tool :
  In tool handle_list_tools ->
  schema_requires tool "call_id" = true
  <-> forall w s,
        handle_call_tool self (name tool) None w s =
          (Ok (error_envelope ("call_id is required for " ++ name tool)), s).
Proof.
  intros Hin. cbn in Hin.
  destruct Hin as [<- | [<- | [<- | [<- | []]]]]; cbn [name].
  - split; [discriminate |]. intros Hall. exfalso.
    apply (windowed_operation_reads_clock self "search_calls" offline_world);
      [left; reflexivity |].
    rewrite (Hall offline_world initial). reflexivity.
  - split; [intros _ w s; reflexivity | reflexivity].
  - split; [intros _ w s; reflexivity | reflexivity].
  - split; [discriminate |]. intros Hall. exfalso.
    apply (windowed_operation_reads_clock self "list_scorecards"
             offline_world); [right; reflexivity |].
    rewrite (Hall offline_world initial). reflexivity.
Qed.

Lemma required_call_id_witness :
  schema_requires
    (Build_Tool "get_call_stats"
       "Get statistics about a specific call (talk ratio, questions asked, etc.)"
       (PyDict
          [("type", PyStr "object");
           ("properties",
            PyDict
              [("call_id",
                PyDict [("type", PyStr "string");
                        ("description", PyStr "The Gong call ID")])]);
           ("required", PyList [PyStr "call_id"])]))
    "call_id" = true
  <-> forall w s,
        handle_call_tool example_server "get_call_stats" None w s =
          (Ok (error_envelope "call_id is required for get_call_stats"), s).
Proof.
  apply (required_call_id_is_what_dispatch_validates example_server
           (Build_Tool "get_call_stats"
              "Get statistics about a specific call (talk ratio, questions asked, etc.)"
              (PyDict
                 [("type", PyStr "object");
                  ("properties",
                   PyDict
                     [("call_id",
                       PyDict [("type", PyStr "string");
                               ("description", PyStr "The Gong call ID")])]);
                  ("required", PyList [PyStr "call_id"])]))).
  cbn. tauto.
Defined.

(** X16.  The defaults the input schemas declare for [days_back] are
    the defaults the handlers apply: for an advertised tool whose schema
    gives [days_back] a default, invoking it without arguments, with an
    empty argument map, or with [days_back] set to that default cannot
    be told apart. *)
Theorem schema_defaults_are_the_handler_defaults self tool default w s :
  In tool handle_list_tools ->
  schema_default tool "days_back" = Some default ->
  handle_call_tool self (name tool) None w s =
    handle_call_tool self (name tool) (Some [("days_back", default)]) w s
  /\ handle_call_tool self (name tool) (Some []) w s =
     handle_call_tool self (name tool) None w s.
Proof.
  intros Hin Hdefault. cbn in Hin.
  destruct Hin as [<- | [<- | [<- | [<- | []]]]]; cbn in Hdefault;
    try discriminate; injection Hdefault as <-; cbn [name].
  - rewrite !handle_call_tool_run, !dispatch_search_calls, !search_calls_run.
    split; reflexivity.
  - rewrite !handle_call_tool_run, !dispatch_list_scorecards,
      !list_scorecards_run.
    split; reflexivity.
Qed.

Lemma schema_defaults_witness :
  handle_call_tool example_server "search_calls" None
    twelve_calls_world initial =
    handle_call_tool example_server "search_calls"
      (Some [("days_back", PyInt 7)]) twelve_calls_world initial
  /\ handle_call_tool example_server "search_calls" (Some [])
       twelve_calls_world initial =
     handle_call_tool example_server "search_calls" None
       twelve_calls_world initial.
Proof.
  apply (schema_defaults_are_the_handler_defaults example_server
           (nth 0 handle_list_tools (Build_Tool "" "" PyNone)) (PyInt 7)
           twelve_calls_world initial).
  - left. reflexivity.
  - reflexivity.
Defined.

(* ------------------------------------------------------------------ *)
(** ** Start-up *)
(* ------------------------------------------------------------------ *)

(** X17.  The server is constructed exactly when both credentials are
    set and not empty (an empty variable counts as unset), and then it
    holds them unchanged, with the fixed base URL. *)
Theorem init_requires_both_credentials key secret srv :
  init key secret = Ok srv
  <-> exists k s,
        key = Some k /\ secret = Some s /\ k <> "" /\ s <> ""
        /\ srv = Server k s "https://api.gong.io/v2".
Proof.
  unfold init. split.
  - destruct key as [k |], secret as [s |]; try discriminate.
    destruct (String.eqb_spec k ""), (String.eqb_spec s "");
      cbn; try discriminate.
    intros H. injection H as <-. exists k, s. repeat split; assumption.
  - intros (k & s & -> & -> & Hk & Hs & ->).
    apply String.eqb_neq in Hk, Hs. rewrite Hk, Hs. reflexivity.
Qed.

(* ------------------------------------------------------------------ *)
(** ** Transcripts: the entry list *)
(* ------------------------------------------------------------------ *)

(** X18.  On a 2xx object payload, the transcript operation tests
    [callTranscripts] for truth, not for being a list.
    - Any falsy value (absent, the empty list, null, false, 0, an empty
      string, an empty object) gives the soft error object.
    - A first entry that is an object without sentences (no [sentences]
      key, or an empty list) does not: the result is the list-shaped
      one, with an empty conversation and both counts 0.
    - A first entry that is not an object makes the operation raise. *)
Theorem transcript_entry_list_edge_cases
    self call_id w req status_code text payload :
  In req (issued (get_call_transcript self call_id) w) ->
  remote w req = Response status_code text (inr (PyDict payload)) ->
  is_success status_code = true ->
  (truthy (dict_get payload "callTranscripts" (PyList [])) = false ->
   outcome (get_call_transcript self call_id) w =
     Ok (PyDict [("error", PyStr "No transcript found for this call")]))
  /\ (forall entry rest,
        dict_get payload "callTranscripts" (PyList []) =
          PyList (PyDict entry :: rest) ->
        dict_get entry "sentences" (PyList []) = PyList [] ->
        outcome (get_call_transcript self call_id) w =
          Ok (PyDict [("call_id", call_id);
                      ("conversation", PyList []);
                      ("total_sentences", PyInt 0);
                      ("showing", PyInt 0)]))
  /\ (forall first rest,
        dict_get payload "callTranscripts" (PyList []) =
          PyList (first :: rest) ->
        is_dict first = false ->
        outcome (get_call_transcript self call_id) w =
          Raise (AttributeError
                   ("'" ++ type_name first
                    ++ "' object has no attribute 'get'"))).
Proof.
  intros Hin Hremote Hstatus.
  rewrite (get_call_transcript_answered self call_id w req Hin), Hremote.
  unfold interpret. rewrite Hstatus. cbn [rbind].
  unfold get_call_transcript_format. rewrite py_get_dict. cbn [rbind].
  split; [| split].
  - intros ->. reflexivity.
  - intros entry rest -> Hsentences.
    cbn [truthy negb py_getitem_0 rbind]. rewrite py_get_dict, Hsentences.
    reflexivity.
  - intros first rest -> Hfirst.
    cbn [truthy negb py_getitem_0 rbind].
    destruct first; try discriminate; reflexivity.
Qed.

Lemma transcript_entry_list_witness :
  outcome (get_call_transcript example_server (PyStr "X"))
    (example_world
       (Response 200 "" (inr (PyDict [("callTranscripts", PyNone)])))) =
    Ok (PyDict [("error", PyStr "No transcript found for this call")]).
Proof.
  destruct (transcript_entry_list_edge_cases example_server (PyStr "X")
              (example_world
                 (Response 200 ""
                    (inr (PyDict [("callTranscripts", PyNone)]))))
              example_transcript_request 200 ""
              [("callTranscripts", PyNone)])
    as [Hfalsy _].
  - vm_compute. left. reflexivity.
  - reflexivity.
  - reflexivity.
  - apply Hfalsy. reflexivity.
Defined.



(* ------------------------------------------------------------------ *)
(** ** The [error] key *)
(* ------------------------------------------------------------------ *)

Lemma search_calls_format_inv payload r :
  search_calls_format payload = Ok r ->
  exists calls,
    r = PyDict [("found", PyInt (Z.of_nat (List.length calls)));
                ("calls", PyList calls)].
Proof.
  unfold search_calls_format, rbind.
  repeat (let E := fresh "E" in
          match goal with
          | |- context [match ?x with _ => _ end] => destruct x eqn:E
          end; try discriminate).
  intros H. injection H as <-. eexists. reflexivity.
Qed.

Lemma get_call_stats_format_inv call_id payload r :
  get_call_stats_format call_id payload = Ok r ->
  exists d, r = PyDict d /\ dict_lookup "error" d = None.
Proof.
  unfold get_call_stats_format, rbind.
  repeat (let E := fresh "E" in
          match goal with
          | |- context [match ?x with _ => _ end] => destruct x eqn:E
          end; try discriminate).
  intros H. injection H as <-. eexists. split; reflexivity.
Qed.

Lemma list_scorecards_format_inv days_back payload r :
  list_scorecards_format days_back payload = Ok r ->
  exists d, r = PyDict d /\ dict_lookup "error" d = None.
Proof.
  unfold list_scorecards_format, rbind.
  destruct (py_get payload "scorecards" (PyList [])); [| discriminate].
  intros H. injection H as <-. eexists. split; reflexivity.
Qed.

Lemma get_call_transcript_format_inv call_id payload r :
  get_call_transcript_format call_id payload = Ok r ->
  r = PyDict [("error", PyStr "No transcript found for this call")]
  \/ exists d, r = PyDict d /\ dict_lookup "error" d = None.
Proof.
  unfold get_call_transcript_format, rbind.
  destruct (py_get payload "callTranscripts" (PyList [])) as [transcripts |];
    [| discriminate].
  destruct (negb (truthy transcripts)).
  - intros H. injection H as <-. left. reflexivity.
  - repeat (let E := fresh "E" in
            match goal with
            | |- context [match ?x with _ => _ end] => destruct x eqn:E
            end; try discriminate).
    intros H. injection H as <-. right. eexists. split; reflexivity.
Qed.

Lemma rbind_ok_inv {A B} (r : result A) (k : A -> result B) (b : B) :
  rbind r k = Ok b -> exists a, r = Ok a /\ k a = Ok b.
Proof. destruct r as [a |]; [| discriminate]. intros H. exists a. auto. Qed.

(** X20.  A result that the search, the stats or the scorecard
    operation returns is an object without an [error] key, so for these
    three an [error] key in the envelope always reports an exception.
    A result that the transcript operation returns has an [error] key
    only when it is the soft error object. *)
Theorem error_key_is_reserved_for_failures self w s r s' :
  (forall params,
     search_calls self params w s = (Ok r, s') ->
     exists d, r = PyDict d /\ dict_lookup "error" d = None)
  /\ (forall call_id,
        get_call_stats self call_id w s = (Ok r, s') ->
        exists d, r = PyDict d /\ dict_lookup "error" d = None)
  /\ (forall params,
        list_scorecards self params w s = (Ok r, s') ->
        exists d, r = PyDict d /\ dict_lookup "error" d = None)
  /\ (forall call_id,
        get_call_transcript self call_id w s = (Ok r, s') ->
        r = PyDict [("error", PyStr "No transcript found for this call")]
        \/ exists d, r = PyDict d /\ dict_lookup "error" d = None).
Proof.
  split; [| split; [| split]].
  - intros params. rewrite search_calls_run.
    destruct (date_window _ w s) as [[window | e] s1]; [| discriminate].
    intros Hrun. injection Hrun as H _.
    apply rbind_ok_inv in H. destruct H as (payload & _ & H).
    apply search_calls_format_inv in H. destruct H as [calls ->].
    eexists. split; reflexivity.
  - intros call_id. rewrite get_call_stats_run.
    intros Hrun. injection Hrun as H _.
    apply rbind_ok_inv in H. destruct H as (payload & _ & H).
    apply get_call_stats_format_inv in H. exact H.
  - intros params. rewrite list_scorecards_run.
    destruct (date_window _ w s) as [[window | e] s1]; [| discriminate].
    intros Hrun. injection Hrun as H _.
    apply rbind_ok_inv in H. destruct H as (payload & _ & H).
    apply list_scorecards_format_inv in H. exact H.
  - intros call_id. rewrite get_call_transcript_run.
    intros Hrun. injection Hrun as H _.
    apply rbind_ok_inv in H. destruct H as (payload & _ & H).
    apply get_call_transcript_format_inv in H. exact H.
Qed.

Lemma error_key_witness :
  exists d,
    PyDict [("found", PyInt 0); ("calls", PyList [])] = PyDict d
    /\ dict_lookup "error" d = None.
Proof.
  destruct (error_key_is_reserved_for_failures example_server
              example_search_world initial
              (PyDict [("found", PyInt 0); ("calls", PyList [])])
              (State 2 [example_search_request]))
    as [Hsearch _].
  apply (Hsearch []). vm_compute. reflexivity.
Defined.

(* ------------------------------------------------------------------ *)
(** ** The envelope text *)
(* ------------------------------------------------------------------ *)

(** Induction on a value and, inside it, on the items it holds. *)
Lemma value_nested_ind (P : value -> Prop)
    (HNone : P PyNone)
    (HBool : forall b, P (PyBool b))
    (HInt : forall n, P (PyInt n))
    (HStr : forall s, P (PyStr s))
    (HList : forall l, Forall P l -> P (PyList l))
    (HDict : forall d, Forall (fun kv => P (snd kv)) d -> P (PyDict d)) :
  forall v, P v.
Proof.
  exact (fix F (v : value) : P v :=
           match v with
           | PyNone => HNone
           | PyBool b => HBool b
           | PyInt n => HInt n
           | PyStr s => HStr s
           | PyList l =>
               HList l
                 ((fix G (l : list value) : Forall P l :=
                     match l with
                     | [] => Forall_nil P
                     | x :: l' => Forall_cons x (F x) (G l')
                     end) l)
           | PyDict d =>
               HDict d
                 ((fix G (d : list (string * value))
                     : Forall (fun kv => P (snd kv)) d :=
                     match d with
                     | [] => Forall_nil _
                     | kv :: d' =>
                         @Forall_cons _ (fun kv => P (snd kv)) kv d'
                           (F (snd kv)) (G d')
                     end) d)
           end).
Qed.

Lemma string_forallb_app p (a b : string) :
  string_forallb p (a ++ b) = string_forallb p a && string_forallb p b.
Proof.
  induction a as [| c a IH]; [reflexivity |].
  cbn. rewrite IH. apply andb_assoc.
Qed.

Lemma uint_digits_plain (d : Decimal.uint) :
  string_forallb plain_ascii (NilEmpty.string_of_uint d) = true.
Proof. induction d; cbn; auto. Qed.

Lemma str_int_plain (n : Z) : string_forallb plain_ascii (str_int n) = true.
Proof.
  unfold str_int, NilZero.string_of_int, NilZero.string_of_uint.
  destruct (Z.to_int n) as [d | d]; destruct d; cbn;
    try reflexivity; apply uint_digits_plain.
Qed.

Lemma string_flat_map_plain (f : ascii -> string) (s : string) :
  (forall c, string_forallb plain_ascii (f c) = true) ->
  string_forallb plain_ascii (string_flat_map f s) = true.
Proof.
  intros Hf. induction s as [| c s IH]; [reflexivity |].
  cbn. rewrite string_forallb_app, Hf, IH. reflexivity.
Qed.

(** A JSON string literal escapes whatever is not plain. *)
Lemma json_string_plain (s : string) :
  string_forallb plain_ascii (json_string s) = true.
Proof.
  unfold json_string. cbv zeta. cbn [append string_forallb].
  rewrite string_forallb_app, string_flat_map_plain; [reflexivity |].
  intros [[|] [|] [|] [|] [|] [|] [|] [|]]; vm_compute; reflexivity.
Qed.

Lemma repeat_char_plain (c : ascii) (n : nat) :
  plain_ascii c = true ->
  string_forallb plain_ascii (repeat_char c n) = true.
Proof.
  intros Hc. induction n as [| n IH]; [reflexivity |].
  cbn. rewrite Hc, IH. reflexivity.
Qed.

Lemma join_plain (sep : string) (l : list string) :
  string_forallb plain_ascii sep = true ->
  Forall (fun x => string_forallb plain_ascii x = true) l ->
  string_forallb plain_ascii (join sep l) = true.
Proof.
  intros Hsep Hl. induction Hl as [| x l Hx Hl IH]; [reflexivity |].
  destruct l as [| y l]; [exact Hx |].
  change (join sep (x :: y :: l)) with (x ++ sep ++ join sep (y :: l)).
  rewrite !string_forallb_app, Hx, Hsep, IH. reflexivity.
Qed.

Lemma layout_plain (level : nat) :
  string_forallb plain_ascii (newline ++ indentation level) = true.
Proof.
  rewrite string_forallb_app. unfold indentation.
  rewrite repeat_char_plain; reflexivity.
Qed.

Lemma string_forallb_app_true p (a b : string) :
  string_forallb p a = true ->
  string_forallb p b = true ->
  string_forallb p (a ++ b) = true.
Proof. intros Ha Hb. rewrite string_forallb_app, Ha, Hb. reflexivity. Qed.

Lemma separator_plain (level : nat) :
  string_forallb plain_ascii ("," ++ newline ++ indentation level) = true.
Proof. apply string_forallb_app_true; [reflexivity | apply layout_plain]. Qed.

Lemma dumps_at_plain (v : value) :
  forall level, string_forallb plain_ascii (dumps_at level v) = true.
Proof.
  induction v as [| b | n | s | l IH | d IH] using value_nested_ind;
    intros level.
  - reflexivity.
  - destruct b; reflexivity.
  - apply str_int_plain.
  - apply json_string_plain.
  - destruct l as [| x l]; [reflexivity |].
    change (dumps_at level (PyList (x :: l))) with
      ("[" ++ (newline ++ indentation (S level))
       ++ join ("," ++ newline ++ indentation (S level))
            (map (dumps_at (S level)) (x :: l))
       ++ (newline ++ indentation level) ++ "]").
    apply string_forallb_app_true; [reflexivity |].
    apply string_forallb_app_true; [apply layout_plain |].
    apply string_forallb_app_true;
      [| apply string_forallb_app_true; [apply layout_plain | reflexivity]].
    apply join_plain; [apply separator_plain |].
    apply Forall_map. revert IH. apply Forall_impl.
    intros item H. apply H.
  - destruct d as [| kv d]; [reflexivity |].
    change (dumps_at level (PyDict (kv :: d))) with
      ("{" ++ (newline ++ indentation (S level))
       ++ join ("," ++ newline ++ indentation (S level))
            (map (fun kv => json_string (fst kv) ++ ": "
                            ++ dumps_at (S level) (snd kv)) (kv :: d))
       ++ (newline ++ indentation level) ++ "}").
    apply string_forallb_app_true; [reflexivity |].
    apply string_forallb_app_true; [apply layout_plain |].
    apply string_forallb_app_true;
      [| apply string_forallb_app_true; [apply layout_plain | reflexivity]].
    apply join_plain; [apply separator_plain |].
    apply Forall_map. revert IH. apply Forall_impl.
    intros item H.
    apply string_forallb_app_true; [apply json_string_plain |].
    apply string_forallb_app_true; [reflexivity | apply H].
Qed.

(** X21.  The one text block an invocation returns consists of
    characters U+0020..U+007E and line feeds only, whatever text the
    arguments, the remote payload or the remote's error body hold:
    [json.dumps] escapes everything else. *)
Theorem envelope_text_is_plain_ascii self name arguments w s :
  exists body s',
    handle_call_tool self name arguments w s =
      (Ok [Build_TextContent "text" body], s')
    /\ string_forallb plain_ascii body = true.
Proof.
  rewrite handle_call_tool_run.
  destruct (fst (dispatch self name arguments w s)) as [v | e];
    eexists; eexists; (split; [reflexivity | apply dumps_at_plain]).
Qed.

(* ------------------------------------------------------------------ *)
(** ** Null where a list is expected *)
(* ------------------------------------------------------------------ *)

(** X22.  The defaults of [.get] cover an absent key only.  On a 2xx
    object payload, a [calls] that is present but null (or a [bool] or
    a number) makes the search raise, and so does such a [sentences] in
    the first transcript entry: the invocation ends with the error
    envelope ['<type>' object is not subscriptable]. *)
Theorem null_list_is_not_defaulted
    self w req status_code text payload v :
  remote w req = Response status_code text (inr (PyDict payload)) ->
  is_success status_code = true ->
  is_scalar v = true ->
  (forall params,
     In req (issued (search_calls self params) w) ->
     dict_lookup "calls" payload = Some v ->
     outcome (handle_call_tool self "search_calls" (Some params)) w =
       Ok (error_envelope
             ("'" ++ type_name v ++ "' object is not subscriptable")))
  /\ (forall d call_id entry rest,
        dict_lookup "call_id" d = Some call_id ->
        In req (issued (get_call_transcript self call_id) w) ->
        dict_lookup "callTranscripts" payload =
          Some (PyList (PyDict entry :: rest)) ->
        dict_lookup "sentences" entry = Some v ->
        outcome (handle_call_tool self "get_call_transcript" (Some d)) w =
          Ok (error_envelope
                ("'" ++ type_name v ++ "' object is not subscriptable"))).
Proof.
  intros Hremote Hstatus Hv. split.
  - intros params Hin Hcalls.
    unfold outcome.
    rewrite handle_call_tool_run, dispatch_search_calls, or_empty_some.
    cbn [fst].
    change (fst (search_calls self params w initial)) with
      (outcome (search_calls self params) w).
    rewrite (search_calls_answered self params w req Hin), Hremote.
    unfold interpret. rewrite Hstatus. cbn [rbind].
    unfold search_calls_format. rewrite py_get_dict. unfold dict_get.
    rewrite Hcalls. destruct v; try discriminate; reflexivity.
  - intros d call_id entry rest Hd Hin Htranscripts Hsentences.
    rewrite (handle_get_call_transcript self d call_id w Hd),
      (get_call_transcript_answered self call_id w req Hin), Hremote.
    unfold interpret. rewrite Hstatus. cbn [rbind].
    unfold get_call_transcript_format. rewrite py_get_dict. unfold dict_get.
    rewrite Htranscripts. cbn [rbind truthy negb py_getitem_0].
    rewrite py_get_dict. unfold dict_get. rewrite Hsentences.
    destruct v; try discriminate; reflexivity.
Qed.

Lemma null_list_witness :
  outcome (handle_call_tool example_server "search_calls" (Some []))
    (example_world (Response 200 "" (inr (PyDict [("calls", PyNone)])))) =
    Ok (error_envelope "'NoneType' object is not subscriptable").
Proof.
  destruct (null_list_is_not_defaulted example_server
              (example_world
                 (Response 200 "" (inr (PyDict [("calls", PyNone)]))))
              example_search_request 200 "" [("calls", PyNone)] PyNone)
    as [Hsearch _].
  - reflexivity.
  - reflexivity.
  - reflexivity.
  - apply (Hsearch []).
    + vm_compute. left. reflexivity.
    + reflexivity.
Defined.
